(** * custom-writing-assistant: the proofreader front end and its pipeline

    The development has two halves.

    - [Frontend] embeds [static/script.js] (class [ProofreaderApp]): the
      methods [proofreadText], [setLoading], [showFinalResult],
      [copyFinalText], [copyTextFallback] and [showCopySuccess], as
      computations in a small state-and-exception monad over the part of the
      page the script touches.
    - [Pipeline] is the sentence pipeline served behind [/api/proofread]
      ([app.py] in the project layout listed by the README).  That file is
      not part of the sources at hand, so its components are modelled from
      the written specification and are marked as such.

    Strings are sequences of code units, as JavaScript has them. *)

From Stdlib Require Import Ascii String DecimalString.
From Stdlib Require Import NArith ZArith Arith Bool Lia List.
Import ListNotations.

Set Implicit Arguments.

(* ================================================================== *)
(** * Text *)

Module Text.

(** A JavaScript string is a sequence of UTF-16 code units. *)
Definition char := N.
Definition str := list char.

(** String literals of the script, as code units. *)
Definition lit (s : string) : str :=
  map (fun a => N_of_ascii a) (list_ascii_of_string s).

Definition str_eqb (a b : str) : bool :=
  if list_eq_dec N.eq_dec a b then true else false.

(** [WhiteSpace] and [LineTerminator] of ECMAScript: the characters that
    [String.prototype.trim] strips. *)
Definition is_whitespace (c : char) : bool :=
  ((9 <=? c) && (c <=? 13)        (* TAB, LF, VT, FF, CR *)
   || (c =? 32)                   (* SPACE *)
   || (c =? 160)                  (* NO-BREAK SPACE *)
   || (c =? 5760)                 (* U+1680 *)
   || (8192 <=? c) && (c <=? 8202) (* U+2000 .. U+200A *)
   || (c =? 8232) || (c =? 8233)  (* LINE / PARAGRAPH SEPARATOR *)
   || (c =? 8239)                 (* U+202F *)
   || (c =? 8287)                 (* U+205F *)
   || (c =? 12288)                (* U+3000 *)
   || (c =? 65279))%N.            (* U+FEFF *)

Fixpoint trimStart (s : str) : str :=
  match s with
  | [] => []
  | c :: s' => if is_whitespace c then trimStart s' else s
  end.

Definition trimEnd (s : str) : str := rev (trimStart (rev s)).

(** [String.prototype.trim]. *)
Definition trim (s : str) : str := trimEnd (trimStart s).

(** JavaScript truthiness of a string: the empty string is falsy. *)
Definition truthy (s : str) : bool :=
  match s with [] => false | _ :: _ => true end.

(** [s.substring(a, b)] for [a <= b]. *)
Definition substring (a b : nat) (s : str) : str := firstn (b - a) (skipn a s).

(** Decimal rendering of an integer, as a template literal produces it. *)
Definition decimal (z : Z) : str := lit (NilZero.string_of_int (Z.to_int z)).

(** ** Shapes of texts, for specifications *)

(** Nothing but whitespace. *)
Definition blank (s : str) : Prop := Forall (fun c => is_whitespace c = true) s.

(** No whitespace at the front. *)
Definition no_lead (s : str) : Prop :=
  match s with
  | [] => True
  | c :: _ => is_whitespace c = false
  end.

(** No whitespace at the back. *)
Definition no_trail (s : str) : Prop := no_lead (rev s).

End Text.
Import Text.

(* ================================================================== *)
(** * The front end: [static/script.js] *)

Module Frontend.

(** ** Values exchanged with the server *)

(** The values the script puts in the object literal it serialises. *)
Inductive JsValue :=
| JString (s : str)
| JNumber (z : Z).

Definition ObjectLiteral := list (str * JsValue).

(** Property lookup in an object literal; a repeated key keeps its last
    value, as in JavaScript. *)
Fixpoint get_field (k : str) (fields : ObjectLiteral) : option JsValue :=
  match fields with
  | [] => None
  | (k', v) :: rest =>
      match get_field k rest with
      | Some v' => Some v'
      | None => if str_eqb k k' then Some v else None
      end
  end.

(** The text produced by [JSON.stringify]; serialisation is kept
    symbolic. *)
Inductive JsonText := JSON_stringify (v : ObjectLiteral).

Record Request := {
  url : str;
  method : str;
  headers : list (str * str);
  body : JsonText
}.

(** A JSON value, as [response.json()] gives it.  A number is kept as the
    text that JavaScript's Number-to-String conversion gives for it (the
    script only ever prints it): for an integer of magnitude below 2^53
    that text is its decimal digits. *)
Inductive Json :=
| JsonNull
| JsonBool (b : bool)
| JsonNumber (shown : str)
| JsonString (s : str)
| JsonArray (items : JsonItems)
| JsonObject (fields : JsonFields)
with JsonItems :=
| NoItems
| Item (v : Json) (rest : JsonItems)
with JsonFields :=
| NoFields
| Field (key : str) (v : Json) (rest : JsonFields).

(** A JavaScript value that may be [undefined]. *)
Definition JsData := option Json.

(** The string conversion of a value, as a template literal applies it; an
    array joins its elements with commas, [null] elements left empty. *)
Fixpoint to_string (v : Json) : str :=
  match v with
  | JsonNull => lit "null"
  | JsonBool true => lit "true"
  | JsonBool false => lit "false"
  | JsonNumber shown => shown
  | JsonString s => s
  | JsonArray items => join_items items
  | JsonObject _ => lit "[object Object]"
  end
with join_items (items : JsonItems) : str :=
  match items with
  | NoItems => []
  | Item v rest =>
      (match v with JsonNull => [] | _ => to_string v end)
        ++ match rest with
           | NoItems => []
           | Item _ _ => lit "," ++ join_items rest
           end
  end.

Definition ToString (v : JsData) : str :=
  match v with
  | None => lit "undefined"
  | Some j => to_string j
  end.

(** What an element's [textContent] is after [el.textContent = v]:
    [undefined] and [null] give the empty text. *)
Definition textContent_of (v : JsData) : str :=
  match v with
  | None | Some JsonNull => []
  | Some j => to_string j
  end.

(** The value of a key in a parsed object; a repeated key keeps its last
    value. *)
Fixpoint lookup (key : str) (fields : JsonFields) : JsData :=
  match fields with
  | NoFields => None
  | Field k v rest =>
      match lookup key rest with
      | Some v' => Some v'
      | None => if str_eqb key k then Some v else None
      end
  end.

(** [data.key] for a value from [response.json()] and a key that no
    prototype defines: [undefined] unless [data] is an object that has the
    key; a [TypeError] when [data] is [null] ([property] below). *)
Definition member (data : Json) (key : str) : JsData :=
  match data with
  | JsonObject fields => lookup key fields
  | _ => None
  end.

(** A [Response]: [json_body] is [None] when [response.json()] rejects. *)
Record Response := {
  ok : bool;
  status : N;
  json_body : option Json
}.

Inductive FetchOutcome :=
| NetworkFailure                 (* the promise returned by fetch rejects *)
| Responded (r : Response).

Inductive JsError :=
| Error (message : str)
| FetchRejected
| JsonRejected
| NullProperty (key : str)        (* TypeError: a property of null is read *)
| ClipboardRejected.

(** ** The page *)

(** The temporary element built by [copyTextFallback]. *)
Record TextArea := {
  ta_value : str;
  ta_position : str;
  ta_left : str;
  ta_top : str;
  ta_readonly : bool;
  ta_selection : nat * nat
}.

(** The properties of the elements collected by [initializeElements]
    that the methods below read or write.  The style fields hold the text
    last assigned to them; the script never reads them back. *)
Record Dom := {
  textInput_value : str;
  proofreadBtn_disabled : bool;
  btnText_display : str;
  loadingSpinner_display : str;
  correctionsContainer_display : str;
  acceptAllBtn_display : str;
  rejectAllBtn_display : str;
  correctionsCount_textContent : str;
  finalText_textContent : str;
  resultsSection_display : str;
  copyResultBtn_textContent : str;
  copyResultBtn_background : str;
  body_children : list TextArea
}.

(** What a pending [setTimeout] callback of [showCopySuccess] does when it
    fires: it puts [originalText] back on the copy button. *)
Inductive TimerCallback := RestoreCopyButton (originalText : str).

Inductive Method := M_setLoading (isLoading : bool) | M_showFinalResult
                  | M_copyTextFallback | M_showCopySuccess.

(** Observable effects, in the order they happen.  [Call] entries are a
    ghost trace of the methods entered. *)
Inductive Event :=
| Alert (message : str)
| ConsoleError (label : str) (e : JsError)
| Fetch (r : Request)
| ScrollIntoView
| Call (m : Method).

Record State := {
  dom : Dom;
  clipboard : str;                       (* the system clipboard *)
  exec_calls : nat;                      (* calls of document.execCommand so far *)
  timers : list (N * TimerCallback);     (* pending setTimeout callbacks *)
  log : list Event
}.

(** The browser and the network, outside the script's control. *)
Record Env := {
  net : Request -> FetchOutcome;
  navigator_clipboard : bool;            (* navigator.clipboard is present *)
  isSecureContext : bool;                (* window.isSecureContext *)
  writeText_resolves : bool;             (* navigator.clipboard.writeText settles well *)
  execCommand_copy : nat -> bool         (* result of the n-th execCommand('copy') *)
}.

(** ** The monad: state, environment and exceptions *)

(** A call of an [async] method is followed from its start to the moment
    its promise settles; each [await] takes its outcome from the
    environment.  What other handlers do to the page while the call waits is
    not part of a run. *)

Inductive Outcome (A : Type) :=
| Returned (a : A)
| Thrown (e : JsError).
Arguments Thrown {A} e.

Definition M (A : Type) := Env -> State -> Outcome A * State.

Definition ret {A} (a : A) : M A := fun _ s => (Returned a, s).

Definition bind {A B} (m : M A) (k : A -> M B) : M B :=
  fun e s =>
    match m e s with
    | (Returned a, s') => k a e s'
    | (Thrown x, s') => (Thrown x, s')
    end.

Definition throw {A} (x : JsError) : M A := fun _ s => (Thrown x, s).

(** [try { m } catch (x) { h x }] *)
Definition try_catch {A} (m : M A) (h : JsError -> M A) : M A :=
  fun e s =>
    match m e s with
    | (Returned a, s') => (Returned a, s')
    | (Thrown x, s') => h x e s'
    end.

(** [try { m } finally { f }]: [f] runs however [m] ends; the outcome of
    [m] stands unless [f] itself throws. *)
Definition try_finally {A} (m : M A) (f : M unit) : M A :=
  fun e s =>
    let (r, s') := m e s in
    match f e s' with
    | (Returned _, s'') => (r, s'')
    | (Thrown x, s'') => (Thrown x, s'')
    end.

Definition gets {A} (f : State -> A) : M A := fun _ s => (Returned (f s), s).
Definition asks {A} (f : Env -> A) : M A := fun e s => (Returned (f e), s).
Definition modify (f : State -> State) : M unit := fun _ s => (Returned tt, f s).

Declare Scope js_scope.
Delimit Scope js_scope with js.
Notation "x <- m ;; k" := (bind m (fun x => k))
  (at level 100, m at next level, right associativity) : js_scope.
Notation "m ;; k" := (bind m (fun _ => k))
  (at level 100, right associativity) : js_scope.
Local Open Scope js_scope.

(** ** Assignments *)

Definition with_dom (f : Dom -> Dom) (s : State) : State :=
  {| dom := f (dom s); clipboard := clipboard s; exec_calls := exec_calls s;
     timers := timers s; log := log s |}.

Definition emit (ev : Event) : M unit :=
  modify (fun s =>
    {| dom := dom s; clipboard := clipboard s; exec_calls := exec_calls s;
       timers := timers s; log := log s ++ [ev] |}).

Definition set_proofreadBtn_disabled (v : bool) (d : Dom) : Dom :=
  {| textInput_value := textInput_value d;
     proofreadBtn_disabled := v;
     btnText_display := btnText_display d;
     loadingSpinner_display := loadingSpinner_display d;
     correctionsContainer_display := correctionsContainer_display d;
     acceptAllBtn_display := acceptAllBtn_display d;
     rejectAllBtn_display := rejectAllBtn_display d;
     correctionsCount_textContent := correctionsCount_textContent d;
     finalText_textContent := finalText_textContent d;
     resultsSection_display := resultsSection_display d;
     copyResultBtn_textContent := copyResultBtn_textContent d;
     copyResultBtn_background := copyResultBtn_background d;
     body_children := body_children d |}.

Definition set_btnText_display (v : str) (d : Dom) : Dom :=
  {| textInput_value := textInput_value d;
     proofreadBtn_disabled := proofreadBtn_disabled d;
     btnText_display := v;
     loadingSpinner_display := loadingSpinner_display d;
     correctionsContainer_display := correctionsContainer_display d;
     acceptAllBtn_display := acceptAllBtn_display d;
     rejectAllBtn_display := rejectAllBtn_display d;
     correctionsCount_textContent := correctionsCount_textContent d;
     finalText_textContent := finalText_textContent d;
     resultsSection_display := resultsSection_display d;
     copyResultBtn_textContent := copyResultBtn_textContent d;
     copyResultBtn_background := copyResultBtn_background d;
     body_children := body_children d |}.

Definition set_loadingSpinner_display (v : str) (d : Dom) : Dom :=
  {| textInput_value := textInput_value d;
     proofreadBtn_disabled := proofreadBtn_disabled d;
     btnText_display := btnText_display d;
     loadingSpinner_display := v;
     correctionsContainer_display := correctionsContainer_display d;
     acceptAllBtn_display := acceptAllBtn_display d;
     rejectAllBtn_display := rejectAllBtn_display d;
     correctionsCount_textContent := correctionsCount_textContent d;
     finalText_textContent := finalText_textContent d;
     resultsSection_display := resultsSection_display d;
     copyResultBtn_textContent := copyResultBtn_textContent d;
     copyResultBtn_background := copyResultBtn_background d;
     body_children := body_children d |}.

Definition set_correctionsContainer_display (v : str) (d : Dom) : Dom :=
  {| textInput_value := textInput_value d;
     proofreadBtn_disabled := proofreadBtn_disabled d;
     btnText_display := btnText_display d;
     loadingSpinner_display := loadingSpinner_display d;
     correctionsContainer_display := v;
     acceptAllBtn_display := acceptAllBtn_display d;
     rejectAllBtn_display := rejectAllBtn_display d;
     correctionsCount_textContent := correctionsCount_textContent d;
     finalText_textContent := finalText_textContent d;
     resultsSection_display := resultsSection_display d;
     copyResultBtn_textContent := copyResultBtn_textContent d;
     copyResultBtn_background := copyResultBtn_background d;
     body_children := body_children d |}.

Definition set_acceptAllBtn_display (v : str) (d : Dom) : Dom :=
  {| textInput_value := textInput_value d;
     proofreadBtn_disabled := proofreadBtn_disabled d;
     btnText_display := btnText_display d;
     loadingSpinner_display := loadingSpinner_display d;
     correctionsContainer_display := correctionsContainer_display d;
     acceptAllBtn_display := v;
     rejectAllBtn_display := rejectAllBtn_display d;
     correctionsCount_textContent := correctionsCount_textContent d;
     finalText_textContent := finalText_textContent d;
     resultsSection_display := resultsSection_display d;
     copyResultBtn_textContent := copyResultBtn_textContent d;
     copyResultBtn_background := copyResultBtn_background d;
     body_children := body_children d |}.

Definition set_rejectAllBtn_display (v : str) (d : Dom) : Dom :=
  {| textInput_value := textInput_value d;
     proofreadBtn_disabled := proofreadBtn_disabled d;
     btnText_display := btnText_display d;
     loadingSpinner_display := loadingSpinner_display d;
     correctionsContainer_display := correctionsContainer_display d;
     acceptAllBtn_display := acceptAllBtn_display d;
     rejectAllBtn_display := v;
     correctionsCount_textContent := correctionsCount_textContent d;
     finalText_textContent := finalText_textContent d;
     resultsSection_display := resultsSection_display d;
     copyResultBtn_textContent := copyResultBtn_textContent d;
     copyResultBtn_background := copyResultBtn_background d;
     body_children := body_children d |}.

Definition set_correctionsCount_textContent (v : str) (d : Dom) : Dom :=
  {| textInput_value := textInput_value d;
     proofreadBtn_disabled := proofreadBtn_disabled d;
     btnText_display := btnText_display d;
     loadingSpinner_display := loadingSpinner_display d;
     correctionsContainer_display := correctionsContainer_display d;
     acceptAllBtn_display := acceptAllBtn_display d;
     rejectAllBtn_display := rejectAllBtn_display d;
     correctionsCount_textContent := v;
     finalText_textContent := finalText_textContent d;
     resultsSection_display := resultsSection_display d;
     copyResultBtn_textContent := copyResultBtn_textContent d;
     copyResultBtn_background := copyResultBtn_background d;
     body_children := body_children d |}.

Definition set_finalText_textContent (v : str) (d : Dom) : Dom :=
  {| textInput_value := textInput_value d;
     proofreadBtn_disabled := proofreadBtn_disabled d;
     btnText_display := btnText_display d;
     loadingSpinner_display := loadingSpinner_display d;
     correctionsContainer_display := correctionsContainer_display d;
     acceptAllBtn_display := acceptAllBtn_display d;
     rejectAllBtn_display := rejectAllBtn_display d;
     correctionsCount_textContent := correctionsCount_textContent d;
     finalText_textContent := v;
     resultsSection_display := resultsSection_display d;
     copyResultBtn_textContent := copyResultBtn_textContent d;
     copyResultBtn_background := copyResultBtn_background d;
     body_children := body_children d |}.

Definition set_resultsSection_display (v : str) (d : Dom) : Dom :=
  {| textInput_value := textInput_value d;
     proofreadBtn_disabled := proofreadBtn_disabled d;
     btnText_display := btnText_display d;
     loadingSpinner_display := loadingSpinner_display d;
     correctionsContainer_display := correctionsContainer_display d;
     acceptAllBtn_display := acceptAllBtn_display d;
     rejectAllBtn_display := rejectAllBtn_display d;
     correctionsCount_textContent := correctionsCount_textContent d;
     finalText_textContent := finalText_textContent d;
     resultsSection_display := v;
     copyResultBtn_textContent := copyResultBtn_textContent d;
     copyResultBtn_background := copyResultBtn_background d;
     body_children := body_children d |}.

Definition set_copyResultBtn_textContent (v : str) (d : Dom) : Dom :=
  {| textInput_value := textInput_value d;
     proofreadBtn_disabled := proofreadBtn_disabled d;
     btnText_display := btnText_display d;
     loadingSpinner_display := loadingSpinner_display d;
     correctionsContainer_display := correctionsContainer_display d;
     acceptAllBtn_display := acceptAllBtn_display d;
     rejectAllBtn_display := rejectAllBtn_display d;
     correctionsCount_textContent := correctionsCount_textContent d;
     finalText_textContent := finalText_textContent d;
     resultsSection_display := resultsSection_display d;
     copyResultBtn_textContent := v;
     copyResultBtn_background := copyResultBtn_background d;
     body_children := body_children d |}.

Definition set_copyResultBtn_background (v : str) (d : Dom) : Dom :=
  {| textInput_value := textInput_value d;
     proofreadBtn_disabled := proofreadBtn_disabled d;
     btnText_display := btnText_display d;
     loadingSpinner_display := loadingSpinner_display d;
     correctionsContainer_display := correctionsContainer_display d;
     acceptAllBtn_display := acceptAllBtn_display d;
     rejectAllBtn_display := rejectAllBtn_display d;
     correctionsCount_textContent := correctionsCount_textContent d;
     finalText_textContent := finalText_textContent d;
     resultsSection_display := resultsSection_display d;
     copyResultBtn_textContent := copyResultBtn_textContent d;
     copyResultBtn_background := v;
     body_children := body_children d |}.

Definition set_body_children (v : list TextArea) (d : Dom) : Dom :=
  {| textInput_value := textInput_value d;
     proofreadBtn_disabled := proofreadBtn_disabled d;
     btnText_display := btnText_display d;
     loadingSpinner_display := loadingSpinner_display d;
     correctionsContainer_display := correctionsContainer_display d;
     acceptAllBtn_display := acceptAllBtn_display d;
     rejectAllBtn_display := rejectAllBtn_display d;
     correctionsCount_textContent := correctionsCount_textContent d;
     finalText_textContent := finalText_textContent d;
     resultsSection_display := resultsSection_display d;
     copyResultBtn_textContent := copyResultBtn_textContent d;
     copyResultBtn_background := copyResultBtn_background d;
     body_children := v |}.

Definition assign (f : Dom -> Dom) : M unit := modify (with_dom f).

(** ** Browser primitives *)

Definition alert (message : str) : M unit := emit (Alert message).

Definition console_error (label : str) (x : JsError) : M unit :=
  emit (ConsoleError label x).

(** [await fetch(url, init)]: the request goes out, then the promise
    settles as the network decides. *)
Definition fetch (r : Request) : M Response :=
  emit (Fetch r);;
  o <- asks (fun e => net e r);;
  match o with
  | NetworkFailure => throw FetchRejected
  | Responded resp => ret resp
  end.

(** [await response.json()] *)
Definition response_json (r : Response) : M Json :=
  match json_body r with
  | Some d => ret d
  | None => throw JsonRejected
  end.

(** [data.key], for the keys the script reads. *)
Definition property (data : Json) (key : str) : M JsData :=
  match data with
  | JsonNull => throw (NullProperty key)
  | _ => ret (member data key)
  end.

(** ** [ProofreaderApp] *)

(** [setLoading(isLoading)], script.js lines 77-86. *)
Definition setLoading (isLoading : bool) : M unit :=
  emit (Call (M_setLoading isLoading));;
  assign (set_proofreadBtn_disabled isLoading);;
  if isLoading then
    (assign (set_btnText_display (lit "none"));;
     assign (set_loadingSpinner_display (lit "block")))
  else
    (assign (set_btnText_display (lit "block"));;
     assign (set_loadingSpinner_display (lit "none"))).

(** [showFinalResult(finalText, totalChanges)], script.js lines 88-101. *)
Definition showFinalResult (finalText totalChanges : JsData) : M unit :=
  emit (Call M_showFinalResult);;
  assign (set_correctionsContainer_display (lit "none"));;
  assign (set_acceptAllBtn_display (lit "none"));;
  assign (set_rejectAllBtn_display (lit "none"));;
  assign (set_correctionsCount_textContent
            (lit "Total changes: " ++ ToString totalChanges));;
  assign (set_finalText_textContent (textContent_of finalText));;
  assign (set_resultsSection_display (lit "block"));;
  emit ScrollIntoView.

(** The request built at script.js lines 51-60. *)
Definition proofread_request (text : str) : Request :=
  {| url := lit "/api/proofread";
     method := lit "POST";
     headers := [(lit "Content-Type", lit "application/json")];
     body := JSON_stringify
               [(lit "text", JString text);
                (lit "llm_provider", JString (lit "mock"))] |}.

(** [proofreadText()], script.js lines 41-75. *)
Definition proofreadText : M unit :=
  text <- gets (fun s => trim (textInput_value (dom s)));;
  if negb (truthy text) then
    alert (lit "Please enter some text to proofread.")
  else
    (setLoading true;;
     try_finally
       (try_catch
          (response <- fetch (proofread_request text);;
           (if negb (ok response)
            then throw (Error (lit "HTTP error! status: "
                                 ++ decimal (Z.of_N (status response))))
            else ret tt);;
           data <- response_json response;;
           finalText <- property data (lit "final_text");;
           totalChanges <- property data (lit "total_changes");;
           showFinalResult finalText totalChanges)
          (fun error =>
             console_error (lit "Error proofreading text:") error;;
             alert (lit "An error occurred while proofreading. Please try again.")))
       (setLoading false)).

(** The requests among a list of events, oldest first. *)
Fixpoint requests (evs : list Event) : list Request :=
  match evs with
  | [] => []
  | Fetch r :: rest => r :: requests rest
  | _ :: rest => requests rest
  end.

(** The request shape as the specification words it (section 6):
    [ProofreadRequest { text: string (required, non-empty after trim),
    provider: "mock" | "llm" }]. *)
Definition conforms_ProofreadRequest (r : Request) : Prop :=
  match body r with
  | JSON_stringify o =>
      (exists t, get_field (lit "text") o = Some (JString t) /\ trim t <> [])
      /\ (get_field (lit "provider") o = Some (JString (lit "mock"))
          \/ get_field (lit "provider") o = Some (JString (lit "llm")))
  end.

(** *** Copying *)

(** The end passed to [setSelectionRange(0, 99999)]. *)
Definition selection_range_end : nat := N.to_nat 99999.

(** Newline normalisation of a textarea's value (HTML Standard): a CR LF
    pair and a lone CR both become LF. *)
Fixpoint normalize_newlines (s : str) : str :=
  match s with
  | [] => []
  | c :: s' =>
      if (c =? 13)%N
      then 10%N :: match s' with
                   | d :: s'' =>
                       if (d =? 10)%N
                       then normalize_newlines s''
                       else normalize_newlines s'
                   | [] => []
                   end
      else c :: normalize_newlines s'
  end.

Definition new_textarea : TextArea :=
  {| ta_value := []; ta_position := []; ta_left := []; ta_top := [];
     ta_readonly := false; ta_selection := (0, 0) |}.

(** [textArea.value = v]: what the element then has as its value, and what
    selections and copies are taken from, is [v] with its newlines
    normalised. *)
Definition ta_set_value (v : str) (t : TextArea) : TextArea :=
  {| ta_value := normalize_newlines v; ta_position := ta_position t;
     ta_left := ta_left t; ta_top := ta_top t; ta_readonly := ta_readonly t;
     ta_selection := ta_selection t |}.

Definition ta_set_style (position left top : str) (t : TextArea) : TextArea :=
  {| ta_value := ta_value t; ta_position := position; ta_left := left;
     ta_top := top; ta_readonly := ta_readonly t;
     ta_selection := ta_selection t |}.

Definition ta_set_readonly (t : TextArea) : TextArea :=
  {| ta_value := ta_value t; ta_position := ta_position t; ta_left := ta_left t;
     ta_top := ta_top t; ta_readonly := true;
     ta_selection := ta_selection t |}.

(** [setSelectionRange(a, b)]: the selection becomes the range from [a] to
    [b], both ends clamped to the length of the value (HTML Standard, the
    text control selection API). *)
Definition ta_setSelectionRange (a b : nat) (t : TextArea) : TextArea :=
  {| ta_value := ta_value t; ta_position := ta_position t; ta_left := ta_left t;
     ta_top := ta_top t; ta_readonly := ta_readonly t;
     ta_selection := (Nat.min a (length (ta_value t)),
                      Nat.min b (length (ta_value t))) |}.

(** [select()]: the whole value is selected, and the element is the one
    a following copy command reads. *)
Definition ta_select (t : TextArea) : TextArea :=
  ta_setSelectionRange 0 (length (ta_value t)) t.

Definition ta_selected_text (t : TextArea) : str :=
  substring (fst (ta_selection t)) (snd (ta_selection t)) (ta_value t).

(** The element appended last to [document.body] is the one the fallback
    works on; it is shared between the local variable and the page. *)
Definition on_last_child (f : TextArea -> TextArea) (d : Dom) : Dom :=
  set_body_children
    (match rev (body_children d) with
     | [] => []
     | t :: before => rev before ++ [f t]
     end) d.

Definition appendChild (t : TextArea) : M unit :=
  assign (fun d => set_body_children (body_children d ++ [t]) d).

Definition removeChild_last : M unit :=
  assign (fun d => set_body_children (removelast (body_children d)) d).

(** [document.execCommand('copy')]: when the browser carries it out, the
    current selection goes to the clipboard. *)
Definition execCommand_copy_now : M bool :=
  n <- gets exec_calls;;
  successful <- asks (fun e => execCommand_copy e n);;
  modify (fun s =>
    {| dom := dom s;
       clipboard := if successful
                    then match rev (body_children (dom s)) with
                         | t :: _ => ta_selected_text t
                         | [] => clipboard s
                         end
                    else clipboard s;
       exec_calls := S (exec_calls s);
       timers := timers s; log := log s |});;
  ret successful.

(** [copyTextFallback(text)], script.js lines 137-160. *)
Definition copyTextFallback (text : str) : M unit :=
  emit (Call M_copyTextFallback);;
  let textArea :=
    ta_set_readonly
      (ta_set_style (lit "fixed") (lit "-999999px") (lit "-999999px")
         (ta_set_value text new_textarea)) in
  appendChild textArea;;
  assign (on_last_child ta_select);;
  assign (on_last_child (ta_setSelectionRange 0 selection_range_end));;
  successful <- execCommand_copy_now;;
  removeChild_last;;
  if negb successful
  then throw (Error (lit "document.execCommand copy failed"))
  else ret tt.

(** [showCopySuccess()], script.js lines 162-172. *)
Definition showCopySuccess : M unit :=
  emit (Call M_showCopySuccess);;
  originalText <- gets (fun s => copyResultBtn_textContent (dom s));;
  assign (set_copyResultBtn_textContent (lit "Copied!"));;
  assign (set_copyResultBtn_background (lit "#10b981"));;
  modify (fun s =>
    {| dom := dom s; clipboard := clipboard s; exec_calls := exec_calls s;
       timers := timers s ++ [(2000%N, RestoreCopyButton originalText)];
       log := log s |}).

(** What the timer callback of [showCopySuccess] does when it fires. *)
Definition fire (cb : TimerCallback) : M unit :=
  match cb with
  | RestoreCopyButton originalText =>
      assign (set_copyResultBtn_textContent originalText);;
      assign (set_copyResultBtn_background [])
  end.

(** [await navigator.clipboard.writeText(text)] *)
Definition clipboard_writeText (text : str) : M unit :=
  okay <- asks writeText_resolves;;
  if okay
  then modify (fun s =>
         {| dom := dom s; clipboard := text; exec_calls := exec_calls s;
            timers := timers s; log := log s |})
  else throw ClipboardRejected.

(** [copyFinalText()], script.js lines 109-135. *)
Definition copyFinalText : M unit :=
  textToCopy <- gets (fun s => finalText_textContent (dom s));;
  try_catch
    (modern <- asks (fun e => navigator_clipboard e && isSecureContext e);;
     if modern then
       (clipboard_writeText textToCopy;;
        showCopySuccess)
     else
       (copyTextFallback textToCopy;;
        showCopySuccess))
    (fun err =>
       console_error (lit "Failed to copy text:") err;;
       try_catch
         (copyTextFallback textToCopy;;
          showCopySuccess)
         (fun fallbackErr =>
            console_error (lit "Fallback copy also failed:") fallbackErr;;
            alert (lit "Failed to copy text to clipboard. Please select and copy the text manually."))).

(** *** Sample pages and browsers, for examples *)

Definition page (input shown : str) : State :=
  {| dom := {| textInput_value := input;
               proofreadBtn_disabled := false;
               btnText_display := [];
               loadingSpinner_display := [];
               correctionsContainer_display := [];
               acceptAllBtn_display := lit "none";
               rejectAllBtn_display := lit "none";
               correctionsCount_textContent := [];
               finalText_textContent := shown;
               resultsSection_display := lit "none";
               copyResultBtn_textContent := lit "Copy";
               copyResultBtn_background := [];
               body_children := [] |};
     clipboard := []; exec_calls := 0; timers := []; log := [] |}.

(** A browser with no usable [navigator.clipboard] whose
    [execCommand('copy')] works, and whose server is unreachable. *)
Definition legacy_browser : Env :=
  {| net := fun _ => NetworkFailure;
     navigator_clipboard := false;
     isSecureContext := false;
     writeText_resolves := false;
     execCommand_copy := fun _ => true |}.

(** A text of 100000 characters. *)
Definition long_text : str := repeat 97%N (N.to_nat 100000).

End Frontend.

(* ================================================================== *)
(** * The pipeline behind [/api/proofread] *)

Module Pipeline.

(** ** Data model *)

(** Modelled from the spec: the data classes of the server ([app.py]) are
    not among the sources.  Section 3: [SentenceSpan], [ChangeOp],
    [SentenceDiff] and [ProofreadResult], with the fields named there. *)
Module SentenceSpan.
Record t := {
  text : str;
  startOffset : nat;
  endOffset : nat;
  sentenceIndex : nat
}.
End SentenceSpan.

Inductive ChangeType := equal | delete | insert.

Definition is_equal (k : ChangeType) : bool :=
  match k with equal => true | _ => false end.

Module ChangeOp.
Record t := {
  type : ChangeType;
  text : str;
  position : nat
}.
End ChangeOp.

Module SentenceDiff.
Record t := {
  original : str;
  corrected : str;
  changes : list ChangeOp.t;
  sentenceIndex : nat
}.
End SentenceDiff.

Module ProofreadResult.
Record t := {
  sentenceDiffs : list SentenceDiff.t;
  finalText : str;
  totalChanges : nat
}.
End ProofreadResult.

(** ** SentenceSegmenter *)

(** Modelled from the spec: the terminal punctuation of the server's
    segmenter ([app.py]) is not among the sources.  Section 4.1: [.], [!]
    and [?]. *)
Definition is_terminal (c : char) : bool :=
  ((c =? 46) || (c =? 33) || (c =? 63))%N.

(** The scanner is either between two sentences, skipping the separator,
    or inside the sentence that started at [start]; [seen] holds the
    characters of that sentence read so far, newest first. *)
Inductive ScanState :=
| Between
| Inside (start : nat) (seen : str).

Definition ends_with_terminal (seen : str) : bool :=
  match seen with
  | c :: _ => is_terminal c
  | [] => false
  end.

Definition mk_span (start : nat) (txt : str) (idx : nat) : SentenceSpan.t :=
  {| SentenceSpan.text := txt;
     SentenceSpan.startOffset := start;
     SentenceSpan.endOffset := start + List.length txt;
     SentenceSpan.sentenceIndex := idx |}.

(** Modelled from the spec: the sentence segmenter of the server
    ([app.py]) is not among the sources.  Section 4.1: a sentence ends
    after a run of terminal punctuation that is followed by whitespace or
    by the end of the text; the whitespace that follows is a separator and
    belongs to no sentence; a last sentence without terminal punctuation
    runs to the end of the trimmed text. *)
Fixpoint scan (st : ScanState) (pos idx : nat) (cs : str)
  : list SentenceSpan.t :=
  match cs with
  | [] =>
      match st with
      | Between => []
      | Inside start seen => [mk_span start (trimEnd (rev seen)) idx]
      end
  | c :: cs' =>
      match st with
      | Between =>
          if is_whitespace c
          then scan Between (S pos) idx cs'
          else scan (Inside pos [c]) (S pos) idx cs'
      | Inside start seen =>
          if is_whitespace c && ends_with_terminal seen
          then mk_span start (rev seen) idx :: scan Between (S pos) (S idx) cs'
          else scan (Inside start (c :: seen)) (S pos) idx cs'
      end
  end.

(** Modelled from the spec: [segment(text)] of section 4.1; the segmenter
    of the server ([app.py]) is not among the sources.  The scan starts
    between sentences, at offset 0, with sentence index 0. *)
Definition segment (t : str) : list SentenceSpan.t := scan Between 0 0 t.

(** The spans put back together with the separators between them: the
    separator before a span is the part of the text between the end of the
    span before it and its own start. *)
Fixpoint join_from (t : str) (prev_end : nat) (spans : list SentenceSpan.t)
  : str :=
  match spans with
  | [] => []
  | s :: rest =>
      substring prev_end (SentenceSpan.startOffset s) t
        ++ SentenceSpan.text s
        ++ join_from t (SentenceSpan.endOffset s) rest
  end.

Definition join_spans (t : str) (spans : list SentenceSpan.t) : str :=
  match spans with
  | [] => []
  | s :: rest => SentenceSpan.text s ++ join_from t (SentenceSpan.endOffset s) rest
  end.


(** ** CorrectionProvider *)

Inductive ProviderError := ProviderUnavailable | ProviderTimeout.

(** Modelled from the spec: the providers are external collaborators
    (section 4.2).  A provider is known only through the outcome of the
    call made for sentence [i] on its text: a corrected sentence, or a
    failure. *)
Definition CorrectionProvider := nat -> str -> ProviderError + str.

(** ** WordDiffEngine *)

(** Modelled from the spec: the tokenizer of the server's word diff
    ([app.py]) is not among the sources.  Section 4.3: words are the
    stretches between whitespace; punctuation stays with its word.  [cur]
    is the token being read, newest character first. *)
Fixpoint split_ws (cur : str) (cs : str) : list str :=
  match cs with
  | [] => match cur with [] => [] | _ :: _ => [rev cur] end
  | c :: cs' =>
      if is_whitespace c
      then match cur with
           | [] => split_ws [] cs'
           | _ :: _ => rev cur :: split_ws [] cs'
           end
      else split_ws (c :: cur) cs'
  end.

Definition tokenize (s : str) : list str := split_ws [] s.

(** Modelled from the spec: the table of the server's word diff ([app.py])
    is not among the sources.  Section 4.3: the entries of the
    longest-common-subsequence table; [lcs_length xs ys] is the length of a
    longest common subsequence of the two token sequences. *)
Fixpoint lcs_length (xs ys : list str) : nat :=
  match xs with
  | [] => 0
  | x :: xs' =>
      (fix row (ys : list str) : nat :=
         match ys with
         | [] => 0
         | y :: ys' =>
             if str_eqb x y
             then S (lcs_length xs' ys')
             else Nat.max (lcs_length xs' ys) (row ys')
         end) ys
  end.

Definition Edit := (ChangeType * str)%type.

(** Modelled from the spec: the word diff of the server ([app.py]) is not
    among the sources.  Section 4.3: a left-to-right scan of both token
    sequences against the table; equal heads are matched; otherwise the
    scan moves through the original first (a [delete]) unless only moving
    through the corrected sentence keeps a longest common subsequence
    reachable (an [insert]). *)
Fixpoint align (xs ys : list str) : list Edit :=
  match xs with
  | [] => map (fun y => (insert, y)) ys
  | x :: xs' =>
      (fix row (ys : list str) : list Edit :=
         match ys with
         | [] => map (fun x => (delete, x)) xs
         | y :: ys' =>
             if str_eqb x y
             then (equal, x) :: align xs' ys'
             else if lcs_length xs ys' <=? lcs_length xs' ys
                  then (delete, x) :: align xs' ys
                  else (insert, y) :: row ys'
         end) ys
  end.

(** Modelled from the spec: the numbering of the server's word diff
    ([app.py]) is not among the sources.  Section 4.3: [position] counts
    the operations in emission order, from 0. *)
Fixpoint number (n : nat) (es : list Edit) : list ChangeOp.t :=
  match es with
  | [] => []
  | (k, w) :: es' =>
      {| ChangeOp.type := k; ChangeOp.text := w; ChangeOp.position := n |}
        :: number (S n) es'
  end.

(** Modelled from the spec: [diff(original, corrected)] of section 4.3; the
    word diff of the server ([app.py]) is not among the sources. *)
Definition diff (original corrected : str) : list ChangeOp.t :=
  number 0 (align (tokenize original) (tokenize corrected)).

(** The tokens a change sequence keeps from each side. *)
Definition original_tokens (ops : list ChangeOp.t) : list str :=
  map ChangeOp.text
      (filter (fun o => match ChangeOp.type o with
                        | delete | equal => true
                        | insert => false
                        end) ops).

Definition corrected_tokens (ops : list ChangeOp.t) : list str :=
  map ChangeOp.text
      (filter (fun o => match ChangeOp.type o with
                        | insert | equal => true
                        | delete => false
                        end) ops).

(** The two sides of an edit sequence. *)
Definition left_side (es : list Edit) : list str :=
  map snd (filter (fun e => match fst e with insert => false | _ => true end) es).

Definition right_side (es : list Edit) : list str :=
  map snd (filter (fun e => match fst e with delete => false | _ => true end) es).

(** The rules of section 4.3 as a relation between the two token sequences
    and an emitted edit sequence, tie-break included. *)
Inductive Aligned : list str -> list str -> list Edit -> Prop :=
| Aligned_nil :
    Aligned [] [] []
| Aligned_insert_rest y ys es :
    Aligned [] ys es ->
    Aligned [] (y :: ys) ((insert, y) :: es)
| Aligned_delete_rest x xs es :
    Aligned xs [] es ->
    Aligned (x :: xs) [] ((delete, x) :: es)
| Aligned_match x xs ys es :
    Aligned xs ys es ->
    Aligned (x :: xs) (x :: ys) ((equal, x) :: es)
| Aligned_delete x y xs ys es :
    x <> y ->
    lcs_length (x :: xs) ys <= lcs_length xs (y :: ys) ->
    Aligned xs (y :: ys) es ->
    Aligned (x :: xs) (y :: ys) ((delete, x) :: es)
| Aligned_insert x y xs ys es :
    x <> y ->
    lcs_length xs (y :: ys) < lcs_length (x :: xs) ys ->
    Aligned (x :: xs) ys es ->
    Aligned (x :: xs) (y :: ys) ((insert, y) :: es).

(** A run of the engine on a sentence pair. *)
Definition DiffRun (original corrected : str) (ops : list ChangeOp.t) : Prop :=
  exists es, Aligned (tokenize original) (tokenize corrected) es
             /\ ops = number 0 es.

(** Edit sequences in general, with no tie-break: any interleaving that
    consumes both token sequences. *)
Inductive EditScript : list str -> list str -> list Edit -> Prop :=
| ES_nil : EditScript [] [] []
| ES_equal x xs ys es :
    EditScript xs ys es -> EditScript (x :: xs) (x :: ys) ((equal, x) :: es)
| ES_delete x xs ys es :
    EditScript xs ys es -> EditScript (x :: xs) ys ((delete, x) :: es)
| ES_insert y xs ys es :
    EditScript xs ys es -> EditScript xs (y :: ys) ((insert, y) :: es).

(** Within a block of changes the [delete]s come before the [insert]s: no
    [insert] is directly followed by a [delete]. *)
Fixpoint deletes_first (es : list Edit) : bool :=
  match es with
  | [] => true
  | e :: rest =>
      match fst e, rest with
      | insert, (delete, _) :: _ => false
      | _, _ => deletes_first rest
      end
  end.

Definition matches (es : list Edit) : nat :=
  List.length (filter (fun e => is_equal (fst e)) es).

(** ** SentenceDiffAssembler and FinalTextReconstructor *)

Definition count_changes (ops : list ChangeOp.t) : nat :=
  List.length (filter (fun o => negb (is_equal (ChangeOp.type o))) ops).

(** What the assembler has built after some of the spans. *)
Record Progress := {
  built : list SentenceDiff.t;
  running_total : nat;
  recorded : list (nat * ProviderError)
}.

(** Modelled from the spec: the per-sentence correction of the server's
    assembler ([app.py]) is not among the sources.  Section 4.2: the
    provider is called on the span; on failure the sentence is kept
    unchanged and the failure is recorded. *)
Definition correct_or_keep (provider : CorrectionProvider)
           (s : SentenceSpan.t) : str * list (nat * ProviderError) :=
  match provider (SentenceSpan.sentenceIndex s) (SentenceSpan.text s) with
  | inr c => (c, [])
  | inl e => (SentenceSpan.text s, [(SentenceSpan.sentenceIndex s, e)])
  end.

Definition sentence_diff (provider : CorrectionProvider)
           (s : SentenceSpan.t) : SentenceDiff.t :=
  let corrected := fst (correct_or_keep provider s) in
  {| SentenceDiff.original := SentenceSpan.text s;
     SentenceDiff.corrected := corrected;
     SentenceDiff.changes := diff (SentenceSpan.text s) corrected;
     SentenceDiff.sentenceIndex := SentenceSpan.sentenceIndex s |}.

(** Modelled from the spec: the loop body of the server's assembler
    ([app.py]) is not among the sources.  Section 4.4: one diff object per
    span, appended in order; the total grows by the non-equal operations
    of that diff object. *)
Definition step (provider : CorrectionProvider) (p : Progress)
           (s : SentenceSpan.t) : Progress :=
  let d := sentence_diff provider s in
  {| built := built p ++ [d];
     running_total := running_total p + count_changes (SentenceDiff.changes d);
     recorded := recorded p ++ snd (correct_or_keep provider s) |}.

(** The non-equal operations a span contributes. *)
Definition changes_of (provider : CorrectionProvider) (s : SentenceSpan.t) : nat :=
  count_changes (SentenceDiff.changes (sentence_diff provider s)).

Definition join_space (parts : list str) : str :=
  match parts with
  | [] => []
  | p :: rest => p ++ flat_map (fun q => 32%N :: q) rest
  end.

(** Modelled from the spec: the final-text reconstruction of the server
    ([app.py]) is not among the sources.  Section 4.5: without flags every
    sentence contributes its corrected text; with flags a sentence
    contributes its corrected text when accepted and its original text
    otherwise (a sentence without a flag counts as accepted); the
    sentences are joined with a single space. *)
Fixpoint chosen (ds : list SentenceDiff.t) (flags : list bool) : list str :=
  match ds with
  | [] => []
  | d :: ds' =>
      match flags with
      | false :: fl => SentenceDiff.original d :: chosen ds' fl
      | true :: fl => SentenceDiff.corrected d :: chosen ds' fl
      | [] => SentenceDiff.corrected d :: chosen ds' []
      end
  end.

Definition reconstruct (ds : list SentenceDiff.t)
           (acceptedFlags : option (list bool)) : str :=
  join_space (chosen ds (match acceptedFlags with
                         | Some fl => fl
                         | None => []
                         end)).

Definition run (t : str) (provider : CorrectionProvider) : Progress :=
  fold_left (step provider) (segment t)
            {| built := []; running_total := 0; recorded := [] |}.

(** Modelled from the spec: the assembler of the server ([app.py]) is not
    among the sources.  Section 4.4: segment once, process every span in
    order, sum the changes from the diffs, reconstruct the final text. *)
Definition assemble (t : str) (provider : CorrectionProvider)
  : ProofreadResult.t :=
  let p := run t provider in
  {| ProofreadResult.sentenceDiffs := built p;
     ProofreadResult.finalText := reconstruct (built p) None;
     ProofreadResult.totalChanges := running_total p |}.

(** The failures recorded for observability during [assemble]. *)
Definition recorded_failures (t : str) (provider : CorrectionProvider)
  : list (nat * ProviderError) :=
  recorded (run t provider).

(** ** A sample provider, for examples *)

(** A provider that knows one misspelling and corrects the sample sentence
    of section 8. *)
Definition mock : CorrectionProvider :=
  fun _ s =>
    if str_eqb s (lit "This is a sample text with some common erors.")
    then inr (lit "This is a sample text with some common errors.")
    else inr s.

(** A provider that times out on the second sentence. *)
Definition flaky : CorrectionProvider :=
  fun i s => if Nat.eqb i 1 then inl ProviderTimeout else inr (s ++ lit "!").

End Pipeline.

(* ================================================================== *)
(** * The response on the wire *)

Module Wire.

(** Modelled from the spec: the HTTP layer of the server ([app.py]) is not
    among the sources.  Section 6: the result is sent as an object with the
    fields [final_text] and [total_changes], which are the ones the script
    reads (the sentence diffs, which it does not read, are left out).  The
    total is sent as a number.  A total below 2^53 is read back by the
    script as the same number and prints as its decimal digits; a larger
    total, which the script would read rounded, is left without a model. *)
Definition to_response (r : Pipeline.ProofreadResult.t)
  : option Frontend.Json :=
  if (Z.of_nat (Pipeline.ProofreadResult.totalChanges r) <? 2 ^ 53)%Z
  then Some (Frontend.JsonObject
               (Frontend.Field (lit "final_text")
                  (Frontend.JsonString (Pipeline.ProofreadResult.finalText r))
                  (Frontend.Field (lit "total_changes")
                     (Frontend.JsonNumber
                        (decimal
                           (Z.of_nat (Pipeline.ProofreadResult.totalChanges r))))
                     Frontend.NoFields)))
  else None.

End Wire.

(* ================================================================== *)
(** * The rest of the class: construction, listeners, [clearInput],
      [escapeHtml] *)

Module ProofreaderApp.
Import Frontend.
Local Open Scope js_scope.

Definition set_textInput_value (v : str) (d : Dom) : Dom :=
  {| textInput_value := v;
     proofreadBtn_disabled := proofreadBtn_disabled d;
     btnText_display := btnText_display d;
     loadingSpinner_display := loadingSpinner_display d;
     correctionsContainer_display := correctionsContainer_display d;
     acceptAllBtn_display := acceptAllBtn_display d;
     rejectAllBtn_display := rejectAllBtn_display d;
     correctionsCount_textContent := correctionsCount_textContent d;
     finalText_textContent := finalText_textContent d;
     resultsSection_display := resultsSection_display d;
     copyResultBtn_textContent := copyResultBtn_textContent d;
     copyResultBtn_background := copyResultBtn_background d;
     body_children := body_children d |}.

(** ** [escapeHtml] *)

(** How the browser writes one character of a text node when it serialises
    the node to HTML (HTML Standard, escaping a string, outside attribute
    mode): [&], U+00A0, [<] and [>] become entities. *)
Definition escape_char (c : char) : str :=
  if (c =? 38)%N then lit "&amp;"
  else if (c =? 160)%N then lit "&nbsp;"
  else if (c =? 60)%N then lit "&lt;"
  else if (c =? 62)%N then lit "&gt;"
  else [c].

(** [escapeHtml(text)], script.js lines 103-107: the text becomes the text
    content of a fresh [div], whose [innerHTML] is read back. *)
Definition escapeHtml (text : str) : str := flat_map escape_char text.

(** ** Timers *)

(** The oldest pending timer fires; the timers of the script all have the
    same delay, so they fire in the order they were set. *)
Definition fire_next : M unit :=
  pending <- gets timers;;
  match pending with
  | [] => ret tt
  | (_, cb) :: rest =>
      modify (fun s =>
        {| dom := dom s; clipboard := clipboard s; exec_calls := exec_calls s;
           timers := rest; log := log s |});;
      fire cb
  end.

(** ** The [keydown] listener of the text box *)

(** script.js lines 33-38; the result tells whether [preventDefault] was
    called on the event. *)
Definition keydown_listener (ctrlKey metaKey : bool) (key : str) : M bool :=
  if (ctrlKey || metaKey) && str_eqb key (lit "Enter")
  then (proofreadText;; ret true)
  else ret false.

(** ** The app object *)

(** The page together with the fields the constructor adds to the object;
    [focus_calls] counts the calls of [textInput.focus()]. *)
Record App := {
  ui : State;
  corrections : list JsValue;
  originalSentences : list JsValue;
  focus_calls : nat
}.

Definition AppM (X : Type) := Env -> App -> Outcome X * App.

(** A method that works on the page only. *)
Definition on_page {X} (m : M X) : AppM X :=
  fun e a =>
    let (r, s') := m e (ui a) in
    (r, {| ui := s'; corrections := corrections a;
           originalSentences := originalSentences a;
           focus_calls := focus_calls a |}).

(** [clearInput()], script.js lines 174-180. *)
Definition clearInput : AppM unit :=
  fun _ a =>
    (Returned tt,
     {| ui := with_dom (fun d => set_resultsSection_display (lit "none")
                                   (set_textInput_value [] d)) (ui a);
        corrections := [];
        originalSentences := [];
        focus_calls := S (focus_calls a) |}).

(** [new ProofreaderApp()], script.js lines 2-39, on a page that has every
    element [initializeElements] looks up: the two arrays are empty, and
    [bindEvents] hides the accept-all and reject-all buttons and puts the
    listeners below in place. *)
Definition construct (s : State) : App :=
  {| ui := with_dom (fun d => set_rejectAllBtn_display (lit "none")
                                (set_acceptAllBtn_display (lit "none") d)) s;
     corrections := [];
     originalSentences := [];
     focus_calls := 0 |}.

(** What can happen on the page once the app is there: the three buttons
    are clicked, a key goes down in the text box, the user edits the text
    box, a timer fires. *)
Inductive UiEvent :=
| ClickProofread
| ClickClear
| ClickCopy
| KeyDown (ctrlKey metaKey : bool) (key : str)
| EditText (v : str)
| TimerFires.

(** The listeners registered by [bindEvents], script.js lines 24-39.  A
    disabled button receives no click (HTML Standard). *)
Definition dispatch (ev : UiEvent) : AppM unit :=
  match ev with
  | ClickProofread =>
      fun e a =>
        if proofreadBtn_disabled (dom (ui a))
        then (Returned tt, a)
        else on_page proofreadText e a
  | ClickClear => clearInput
  | ClickCopy => on_page copyFinalText
  | KeyDown ctrlKey metaKey key =>
      on_page (keydown_listener ctrlKey metaKey key;; ret tt)
  | EditText v => on_page (modify (with_dom (set_textInput_value v)))
  | TimerFires => on_page fire_next
  end.

(** A session: events handled one after the other, each in the browser and
    network conditions of its moment. *)
Fixpoint run_events (evs : list (Env * UiEvent)) (a : App) : App :=
  match evs with
  | [] => a
  | (e, ev) :: rest => run_events rest (snd (dispatch ev e a))
  end.

End ProofreaderApp.

(* ================================================================== *)
(** * Facts about trimming and substrings *)

Module TextFacts.

Lemma trimStart_no_lead s : no_lead s -> trimStart s = s.
Proof.
  destruct s as [|c s]; simpl; [reflexivity|].
  intros ->. reflexivity.
Qed.

Lemma no_lead_trimStart s : no_lead (trimStart s).
Proof.
  induction s as [|c s IH]; simpl; [exact I|].
  destruct (is_whitespace c) eqn:E; [exact IH|exact E].
Qed.

Lemma trimStart_blank s : blank s -> trimStart s = [].
Proof.
  induction 1 as [|c s Hc _ IH]; simpl; [reflexivity|].
  rewrite Hc. exact IH.
Qed.

Lemma trimStart_app_blank lead s : blank lead -> trimStart (lead ++ s) = trimStart s.
Proof.
  induction 1 as [|c l Hc _ IH]; simpl; [reflexivity|].
  rewrite Hc. exact IH.
Qed.

Lemma trimStart_split s : exists lead, blank lead /\ s = lead ++ trimStart s.
Proof.
  induction s as [|c s (lead & Hb & Hs)]; simpl.
  - exists []. split; [constructor|reflexivity].
  - destruct (is_whitespace c) eqn:E.
    + exists (c :: lead). split; [constructor; assumption|].
      simpl. f_equal. exact Hs.
    + exists []. split; [constructor|reflexivity].
Qed.

Lemma blank_rev s : blank s -> blank (rev s).
Proof. unfold blank. intros H. apply Forall_rev. exact H. Qed.


Lemma trimEnd_split s : exists tail, blank tail /\ s = trimEnd s ++ tail.
Proof.
  unfold trimEnd.
  destruct (trimStart_split (rev s)) as (lead & Hb & Hs).
  exists (rev lead). split; [apply blank_rev; exact Hb|].
  rewrite <- rev_app_distr, <- Hs, rev_involutive. reflexivity.
Qed.

Lemma no_lead_app a b : a <> [] -> no_lead a -> no_lead (a ++ b).
Proof. destruct a; simpl; [congruence|auto]. Qed.

Lemma no_lead_not_blank s : s <> [] -> no_lead s -> ~ blank s.
Proof.
  destruct s as [|c s]; [congruence|].
  simpl. intros _ Hc Hb. inversion Hb; subst. congruence.
Qed.

Lemma trimEnd_no_trail s : no_trail s -> trimEnd s = s.
Proof.
  unfold no_trail, trimEnd. intros H.
  rewrite (trimStart_no_lead _ H). apply rev_involutive.
Qed.

Lemma no_trail_trimEnd s : no_trail (trimEnd s).
Proof.
  unfold no_trail, trimEnd. rewrite rev_involutive. apply no_lead_trimStart.
Qed.


Lemma trimEnd_app_blank s tail : blank tail -> trimEnd (s ++ tail) = trimEnd s.
Proof.
  unfold trimEnd. intros H. rewrite rev_app_distr.
  rewrite trimStart_app_blank by (apply blank_rev; exact H). reflexivity.
Qed.

(** Trimming a sentence that starts with a visible character leaves a
    non-empty text with the same first character. *)
Lemma trimEnd_keeps_lead s : s <> [] -> no_lead s ->
  trimEnd s <> [] /\ no_lead (trimEnd s).
Proof.
  intros Hs Hl.
  destruct (trimEnd_split s) as (tail & Hb & E).
  assert (Hne : trimEnd s <> []).
  { intros Z. rewrite Z in E. simpl in E. subst tail.
    exact (no_lead_not_blank Hs Hl Hb). }
  split; [exact Hne|].
  destruct (trimEnd s) as [|c u]; [congruence|].
  rewrite E in Hl. exact Hl.
Qed.

(** [trim] is characterised by its result: whatever lies between a blank
    lead and a blank tail and has no whitespace at either end. *)
Lemma trim_padded lead mid tail :
  blank lead -> blank tail -> no_lead mid -> no_trail mid ->
  trim (lead ++ mid ++ tail) = mid.
Proof.
  intros Hl Ht Hm1 Hm2. unfold trim.
  rewrite trimStart_app_blank by exact Hl.
  destruct mid as [|c m].
  - simpl. rewrite trimStart_blank by exact Ht. reflexivity.
  - rewrite trimStart_no_lead by (apply no_lead_app; [discriminate|exact Hm1]).
    rewrite trimEnd_app_blank by exact Ht.
    apply trimEnd_no_trail. exact Hm2.
Qed.


Lemma no_lead_trim s : no_lead (trim s).
Proof.
  unfold trim.
  destruct (trimStart s) as [|c u] eqn:E; [exact I|].
  assert (Hl : no_lead (c :: u)) by (rewrite <- E; apply no_lead_trimStart).
  apply trimEnd_keeps_lead; [discriminate|exact Hl].
Qed.

Lemma no_trail_trim s : no_trail (trim s).
Proof. apply no_trail_trimEnd. Qed.

(** [trim] is idempotent. *)
Lemma trim_idempotent s : trim (trim s) = trim s.
Proof.
  rewrite <- (app_nil_r (trim s)) at 1.
  change (trim s ++ []) with ([] ++ trim s ++ []).
  apply trim_padded; try constructor.
  - apply no_lead_trim.
  - apply no_trail_trim.
Qed.

Lemma truthy_nonempty s : truthy s = true <-> s <> [].
Proof. destruct s; simpl; split; congruence. Qed.

(** ** Substrings *)




End TextFacts.

(* ================================================================== *)
(** * The segmenter: what the spans cover *)

Module SegmenterSpec.
Import Pipeline TextFacts.









End SegmenterSpec.

(* ================================================================== *)
(** * The word diff *)

Module DiffSpec.
Import Pipeline.

Lemma str_eqb_eq a b : str_eqb a b = true <-> a = b.
Proof.
  unfold str_eqb. destruct (list_eq_dec N.eq_dec a b); split; congruence.
Qed.

Lemma str_eqb_neq a b : str_eqb a b = false <-> a <> b.
Proof.
  unfold str_eqb. destruct (list_eq_dec N.eq_dec a b); split; congruence.
Qed.

Lemma str_eqb_refl a : str_eqb a a = true.
Proof. apply str_eqb_eq. reflexivity. Qed.

(** The defining equations of the table and of the scan. *)
Lemma lcs_length_cons x xs y ys :
  lcs_length (x :: xs) (y :: ys)
  = if str_eqb x y then S (lcs_length xs ys)
    else Nat.max (lcs_length xs (y :: ys)) (lcs_length (x :: xs) ys).
Proof. reflexivity. Qed.

Lemma align_cons x xs y ys :
  align (x :: xs) (y :: ys)
  = if str_eqb x y then (equal, x) :: align xs ys
    else if lcs_length (x :: xs) ys <=? lcs_length xs (y :: ys)
         then (delete, x) :: align xs (y :: ys)
         else (insert, y) :: align (x :: xs) ys.
Proof. reflexivity. Qed.

Lemma align_nil_r xs : align xs [] = map (fun x => (delete, x)) xs.
Proof. destruct xs; reflexivity. Qed.

Lemma left_side_inserts ys : left_side (map (fun y => (insert, y)) ys) = [].
Proof. induction ys; simpl; auto. Qed.

Lemma right_side_inserts ys : right_side (map (fun y => (insert, y)) ys) = ys.
Proof.
  induction ys as [|y ys IH]; [reflexivity|].
  unfold right_side in *. simpl. f_equal. exact IH.
Qed.

Lemma left_side_deletes xs : left_side (map (fun x => (delete, x)) xs) = xs.
Proof.
  induction xs as [|x xs IH]; [reflexivity|].
  unfold left_side in *. simpl. f_equal. exact IH.
Qed.

Lemma right_side_deletes xs : right_side (map (fun x => (delete, x)) xs) = [].
Proof. induction xs; simpl; auto. Qed.

Lemma sides_equal x es :
  left_side ((equal, x) :: es) = x :: left_side es
  /\ right_side ((equal, x) :: es) = x :: right_side es.
Proof. split; reflexivity. Qed.

Lemma sides_delete x es :
  left_side ((delete, x) :: es) = x :: left_side es
  /\ right_side ((delete, x) :: es) = right_side es.
Proof. split; reflexivity. Qed.

Lemma sides_insert y es :
  left_side ((insert, y) :: es) = left_side es
  /\ right_side ((insert, y) :: es) = y :: right_side es.
Proof. split; reflexivity. Qed.

Lemma align_sides : forall xs ys,
  left_side (align xs ys) = xs /\ right_side (align xs ys) = ys.
Proof.
  induction xs as [|x xs IHx].
  - intros ys. simpl. split; [apply left_side_inserts|apply right_side_inserts].
  - induction ys as [|y ys IHy].
    + rewrite align_nil_r.
      split; [apply left_side_deletes|apply right_side_deletes].
    + rewrite align_cons.
      destruct (str_eqb x y) eqn:E.
      * apply str_eqb_eq in E. subst y.
        destruct (IHx ys) as [L R].
        destruct (sides_equal x (align xs ys)) as [-> ->].
        split; congruence.
      * destruct (lcs_length (x :: xs) ys <=? lcs_length xs (y :: ys)).
        -- destruct (IHx (y :: ys)) as [L R].
           destruct (sides_delete x (align xs (y :: ys))) as [-> ->].
           split; congruence.
        -- destruct IHy as [L R].
           destruct (sides_insert y (align (x :: xs) ys)) as [-> ->].
           split; congruence.
Qed.

Lemma original_tokens_number es : forall n,
  original_tokens (number n es) = left_side es.
Proof.
  induction es as [|[k w] es IH]; intros n; simpl; [reflexivity|].
  unfold original_tokens, left_side in *. simpl.
  destruct k; simpl; rewrite ?IH; try reflexivity; f_equal; apply IH.
Qed.

Lemma corrected_tokens_number es : forall n,
  corrected_tokens (number n es) = right_side es.
Proof.
  induction es as [|[k w] es IH]; intros n; simpl; [reflexivity|].
  unfold corrected_tokens, right_side in *. simpl.
  destruct k; simpl; rewrite ?IH; try reflexivity; f_equal; apply IH.
Qed.

(** The scan follows the rules. *)
Lemma align_Aligned : forall xs ys, Aligned xs ys (align xs ys).
Proof.
  induction xs as [|x xs IHx].
  - induction ys as [|y ys IHy]; simpl; constructor. exact IHy.
  - induction ys as [|y ys IHy].
    + rewrite align_nil_r. simpl. constructor.
      rewrite <- align_nil_r. apply IHx.
    + rewrite align_cons.
      destruct (str_eqb x y) eqn:E.
      * apply str_eqb_eq in E. subst y. constructor. apply IHx.
      * apply str_eqb_neq in E.
        destruct (lcs_length (x :: xs) ys <=? lcs_length xs (y :: ys)) eqn:L.
        -- apply Nat.leb_le in L. constructor; auto.
        -- apply Nat.leb_gt in L. constructor; auto.
Qed.

(** The rules leave no choice. *)
Lemma Aligned_align xs ys es : Aligned xs ys es -> es = align xs ys.
Proof.
  induction 1 as [|y ys es _ IH|x xs es _ IH|x xs ys es _ IH
                 |x y xs ys es Hne Hle _ IH|x y xs ys es Hne Hlt _ IH].
  - reflexivity.
  - simpl in *. congruence.
  - rewrite align_nil_r in *. simpl. congruence.
  - rewrite align_cons, str_eqb_refl. congruence.
  - rewrite align_cons.
    apply str_eqb_neq in Hne. rewrite Hne.
    apply Nat.leb_le in Hle. rewrite Hle. congruence.
  - rewrite align_cons.
    apply str_eqb_neq in Hne. rewrite Hne.
    apply Nat.leb_gt in Hlt. rewrite Hlt. congruence.
Qed.

Lemma number_length es : forall n, List.length (number n es) = List.length es.
Proof.
  induction es as [|[k w] es IH]; intros n; simpl; [reflexivity|].
  rewrite IH. reflexivity.
Qed.

(** [position] is the index in the emitted sequence. *)
Lemma number_position es : forall n i o,
  nth_error (number n es) i = Some o -> ChangeOp.position o = n + i.
Proof.
  induction es as [|[k w] es IH]; intros n i o H.
  - destruct i; discriminate.
  - destruct i as [|i]; simpl in H.
    + inversion H; subst. simpl. lia.
    + apply IH in H. lia.
Qed.

(** ** The scan is minimal *)

Lemma lcs_length_nil_r xs : lcs_length xs [] = 0.
Proof. destruct xs; reflexivity. Qed.

(** One more token on either side adds at most one to the table entry, and
    never takes away. *)
Lemma lcs_length_step : forall n xs ys,
  List.length xs + List.length ys <= n ->
  (forall x, lcs_length xs ys <= lcs_length (x :: xs) ys)
  /\ (forall y, lcs_length xs ys <= lcs_length xs (y :: ys))
  /\ (forall x, lcs_length (x :: xs) ys <= S (lcs_length xs ys))
  /\ (forall y, lcs_length xs (y :: ys) <= S (lcs_length xs ys)).
Proof.
  induction n as [|n IH]; intros xs ys Hn.
  - destruct xs, ys; simpl in Hn; try lia.
    repeat split; intros; simpl; lia.
  - repeat split.
    + intros x. destruct ys as [|y ys]; [rewrite !lcs_length_nil_r; lia|].
      rewrite (lcs_length_cons x xs y ys).
      destruct (str_eqb x y).
      * assert (H : List.length xs + List.length ys <= n) by (simpl in Hn; lia).
        destruct (IH xs ys H) as (_ & _ & _ & A). apply A.
      * lia.
    + intros y. destruct xs as [|x xs]; [simpl; lia|].
      rewrite (lcs_length_cons x xs y ys).
      destruct (str_eqb x y).
      * assert (H : List.length xs + List.length ys <= n) by (simpl in Hn; lia).
        destruct (IH xs ys H) as (_ & _ & B & _). apply B.
      * lia.
    + intros x. destruct ys as [|y ys]; [rewrite !lcs_length_nil_r; lia|].
      rewrite (lcs_length_cons x xs y ys).
      assert (H : List.length xs + List.length ys <= n) by (simpl in Hn; lia).
      destruct (IH xs ys H) as (_ & MR & B & _).
      destruct (str_eqb x y).
      * specialize (MR y). lia.
      * specialize (MR y). specialize (B x). lia.
    + intros y. destruct xs as [|x xs]; [simpl; lia|].
      rewrite (lcs_length_cons x xs y ys).
      assert (H : List.length xs + List.length ys <= n) by (simpl in Hn; lia).
      destruct (IH xs ys H) as (ML & _ & _ & A).
      destruct (str_eqb x y).
      * specialize (ML x). lia.
      * specialize (ML x). specialize (A y). lia.
Qed.

Lemma matches_inserts ys : matches (map (fun y => (insert, y)) ys) = 0.
Proof. induction ys; simpl; auto. Qed.

Lemma matches_deletes xs : matches (map (fun x => (delete, x)) xs) = 0.
Proof. induction xs; simpl; auto. Qed.

(** The scan keeps as many tokens as the table promises. *)
Lemma align_matches : forall xs ys, matches (align xs ys) = lcs_length xs ys.
Proof.
  induction xs as [|x xs IHx].
  - intros ys. simpl. apply matches_inserts.
  - induction ys as [|y ys IHy].
    + rewrite align_nil_r, lcs_length_nil_r. apply matches_deletes.
    + rewrite align_cons, lcs_length_cons.
      destruct (str_eqb x y).
      * unfold matches in *. simpl. rewrite IHx. reflexivity.
      * destruct (lcs_length (x :: xs) ys <=? lcs_length xs (y :: ys)) eqn:L.
        -- apply Nat.leb_le in L.
           change (matches ((delete, x) :: align xs (y :: ys)))
             with (matches (align xs (y :: ys))).
           rewrite IHx. lia.
        -- apply Nat.leb_gt in L.
           change (matches ((insert, y) :: align (x :: xs) ys))
             with (matches (align (x :: xs) ys)).
           rewrite IHy. lia.
Qed.

(** No edit sequence keeps more: the table entry is the length of a longest
    common subsequence, and the scan is a minimal alignment. *)
Lemma EditScript_matches xs ys es :
  EditScript xs ys es -> matches es <= lcs_length xs ys.
Proof.
  induction 1 as [|x xs ys es _ IH|x xs ys es _ IH|y xs ys es _ IH].
  - apply le_n.
  - rewrite lcs_length_cons, str_eqb_refl.
    change (matches ((equal, x) :: es)) with (S (matches es)). lia.
  - change (matches ((delete, x) :: es)) with (matches es).
    destruct (@lcs_length_step _ xs ys (le_n _)) as (ML & _).
    specialize (ML x). lia.
  - change (matches ((insert, y) :: es)) with (matches es).
    destruct (@lcs_length_step _ xs ys (le_n _)) as (_ & MR & _).
    specialize (MR y). lia.
Qed.

Lemma Aligned_EditScript xs ys es : Aligned xs ys es -> EditScript xs ys es.
Proof. induction 1; constructor; assumption. Qed.

(** ** The order inside a block, and the edge cases of section 4.3 *)

Lemma deletes_first_inserts ys : deletes_first (map (fun y => (insert, y)) ys) = true.
Proof.
  induction ys as [|y ys IH]; [reflexivity|].
  simpl. destruct ys; [reflexivity|exact IH].
Qed.

Lemma deletes_first_deletes xs : deletes_first (map (fun x => (delete, x)) xs) = true.
Proof. induction xs as [|x xs IH]; [reflexivity|exact IH]. Qed.

(** After an [insert] the scan does not go on with a [delete]. *)
Lemma align_after_insert x xs y ys :
  lcs_length xs (y :: ys) < lcs_length (x :: xs) ys ->
  match align (x :: xs) ys with
  | (delete, _) :: _ => False
  | _ => True
  end.
Proof.
  intros Hlt. destruct ys as [|y' ys].
  - rewrite lcs_length_nil_r in Hlt. lia.
  - rewrite align_cons. rewrite lcs_length_cons in Hlt.
    destruct (str_eqb x y'); [exact I|].
    destruct (@lcs_length_step _ xs (y' :: ys) (le_n _)) as (_ & MR & _).
    specialize (MR y).
    destruct (lcs_length (x :: xs) ys <=? lcs_length xs (y' :: ys)) eqn:L;
      [|exact I].
    apply Nat.leb_le in L. lia.
Qed.

Lemma align_deletes_first : forall xs ys, deletes_first (align xs ys) = true.
Proof.
  induction xs as [|x xs IHx].
  - intros ys. apply deletes_first_inserts.
  - induction ys as [|y ys IHy].
    + rewrite align_nil_r. apply deletes_first_deletes.
    + rewrite align_cons.
      destruct (str_eqb x y); [exact (IHx ys)|].
      destruct (lcs_length (x :: xs) ys <=? lcs_length xs (y :: ys)) eqn:L.
      * exact (IHx (y :: ys)).
      * apply Nat.leb_gt in L. apply align_after_insert in L.
        change (deletes_first ((insert, y) :: align (x :: xs) ys))
          with (match align (x :: xs) ys with
                | (delete, _) :: _ => false
                | _ => deletes_first (align (x :: xs) ys)
                end).
        destruct (align (x :: xs) ys) as [|[[] w] es]; try exact IHy; try reflexivity.
        contradiction.
Qed.

(** Sentences with no token in common: every original token is deleted,
    then every corrected token is inserted. *)
Lemma align_disjoint : forall xs ys,
  lcs_length xs ys = 0 ->
  align xs ys = map (fun x => (delete, x)) xs ++ map (fun y => (insert, y)) ys.
Proof.
  induction xs as [|x xs IH]; intros ys H; [reflexivity|].
  destruct ys as [|y ys].
  - rewrite align_nil_r, app_nil_r. reflexivity.
  - rewrite align_cons. rewrite lcs_length_cons in H.
    destruct (str_eqb x y); [discriminate H|].
    assert (H1 : lcs_length xs (y :: ys) = 0) by lia.
    assert (H2 : lcs_length (x :: xs) ys = 0) by lia.
    rewrite H1, H2. simpl. rewrite (IH _ H1). reflexivity.
Qed.

End DiffSpec.

(* ================================================================== *)
(** * The assembler *)

Module AssemblerSpec.
Import Pipeline.

Section WithProvider.
Variable provider : CorrectionProvider.

Lemma fold_step spans : forall p,
  let q := fold_left (step provider) spans p in
  built q = built p ++ map (sentence_diff provider) spans
  /\ running_total q = running_total p + list_sum (map (changes_of provider) spans)
  /\ recorded q
     = recorded p ++ flat_map (fun s => snd (correct_or_keep provider s)) spans.
Proof.
  induction spans as [|s spans IH]; intros p; simpl.
  - rewrite !app_nil_r, Nat.add_0_r. auto.
  - destruct (IH (step provider p s)) as (B & T & R).
    rewrite B, T, R. simpl. rewrite <- !app_assoc. simpl.
    unfold changes_of. repeat split; try reflexivity.
    symmetry. apply Nat.add_assoc.
Qed.

Lemma run_built t : built (run t provider) = map (sentence_diff provider) (segment t).
Proof. unfold run. destruct (fold_step (segment t) {| built := []; running_total := 0; recorded := [] |}) as (B & _). exact B. Qed.

Lemma run_total t :
  running_total (run t provider) = list_sum (map (changes_of provider) (segment t)).
Proof. unfold run. destruct (fold_step (segment t) {| built := []; running_total := 0; recorded := [] |}) as (_ & T & _). exact T. Qed.

Lemma run_recorded t :
  recorded (run t provider)
  = flat_map (fun s => snd (correct_or_keep provider s)) (segment t).
Proof. unfold run. destruct (fold_step (segment t) {| built := []; running_total := 0; recorded := [] |}) as (_ & _ & R). exact R. Qed.

End WithProvider.

(** Spans are numbered in order, from the index the scan starts with. *)
Lemma scan_index : forall cs st pos idx i s,
  nth_error (scan st pos idx cs) i = Some s ->
  SentenceSpan.sentenceIndex s = idx + i.
Proof.
  induction cs as [|c cs IH]; intros st pos idx i s H; simpl in H.
  - destruct st as [|start seen].
    + destruct i; discriminate.
    + destruct i as [|i]; simpl in H.
      * inversion H; subst. simpl. lia.
      * destruct i; discriminate.
  - destruct st as [|start seen].
    + destruct (is_whitespace c); apply IH in H; exact H.
    + destruct (is_whitespace c && ends_with_terminal seen).
      * destruct i as [|i]; simpl in H.
        -- inversion H; subst. simpl. lia.
        -- apply IH in H. lia.
      * apply IH in H. exact H.
Qed.

(** A text of whitespace only has no sentence. *)
Lemma scan_blank : forall cs pos idx, blank cs -> scan Between pos idx cs = [].
Proof.
  induction cs as [|c cs IH]; intros pos idx H; [reflexivity|].
  inversion H as [|c' cs' Hc Hcs]; subst. simpl. rewrite Hc. apply IH. exact Hcs.
Qed.

Lemma assemble_blank t provider :
  blank t ->
  assemble t provider
  = {| ProofreadResult.sentenceDiffs := [];
       ProofreadResult.finalText := [];
       ProofreadResult.totalChanges := 0 |}.
Proof.
  intros H. unfold assemble, run, segment. rewrite (scan_blank 0 0 H). reflexivity.
Qed.

Lemma segment_index t i s :
  nth_error (segment t) i = Some s -> SentenceSpan.sentenceIndex s = i.
Proof. intros H. apply scan_index in H. exact H. Qed.

End AssemblerSpec.

(* ================================================================== *)
(** * Properties of the pipeline *)

Module PipelineProperties.
Import Pipeline TextFacts SegmenterSpec DiffSpec AssemblerSpec.

Lemma align_same xs : align xs xs = map (fun x => (equal, x)) xs.
Proof.
  induction xs as [|x xs IH]; [reflexivity|].
  rewrite align_cons, str_eqb_refl, IH. reflexivity.
Qed.

Lemma count_changes_equal_only xs : forall n,
  count_changes (number n (map (fun x => (equal, x)) xs)) = 0.
Proof.
  induction xs as [|x xs IH]; intros n; [reflexivity|].
  simpl. unfold count_changes in *. simpl. apply IH.
Qed.

(** A sentence compared with itself yields [equal] operations only. *)
Lemma diff_same s : count_changes (diff s s) = 0.
Proof. unfold diff. rewrite align_same. apply count_changes_equal_only. Qed.

(** C3.  The result of [assemble] carries a final text and a total; the
    total is the sum, over the sentence diffs of the result, of the number
    of their operations that are not [equal]; the final text is the
    default reconstruction from those same sentence diffs. *)
Theorem total_changes_is_sum (t : str) (provider : CorrectionProvider) :
  ProofreadResult.totalChanges (assemble t provider)
  = list_sum (map (fun d => count_changes (SentenceDiff.changes d))
                  (ProofreadResult.sentenceDiffs (assemble t provider)))
  /\ ProofreadResult.finalText (assemble t provider)
     = reconstruct (ProofreadResult.sentenceDiffs (assemble t provider)) None.
Proof.
  split; [|reflexivity].
  unfold assemble. simpl.
  rewrite run_total, run_built, map_map. reflexivity.
Qed.

(** C5.  In the operations of [diff O C], the [delete] and [equal] tokens
    read in order are the tokens of [O], and the [insert] and [equal]
    tokens read in order are the tokens of [C]. *)
Theorem diff_completeness (O C : str) :
  original_tokens (diff O C) = tokenize O
  /\ corrected_tokens (diff O C) = tokenize C.
Proof.
  unfold diff.
  rewrite original_tokens_number, corrected_tokens_number.
  apply align_sides.
Qed.

(** C6.  The engine is deterministic: a run exists for every sentence
    pair, and any two runs on the same pair emit the same operations,
    positions included; the tie-break rules leave no choice among several
    longest common subsequences. *)
Theorem diff_deterministic (O C : str) :
  DiffRun O C (diff O C)
  /\ forall ops1 ops2, DiffRun O C ops1 -> DiffRun O C ops2 -> ops1 = ops2.
Proof.
  split.
  - exists (align (tokenize O) (tokenize C)). split; [apply align_Aligned|reflexivity].
  - intros ops1 ops2 (es1 & A1 & E1) (es2 & A2 & E2).
    apply Aligned_align in A1. apply Aligned_align in A2. congruence.
Qed.

(** C7.  When the provider fails for sentence [i], the sentence diff at
    index [i] keeps the original as the corrected text and has no change;
    the result still has one sentence diff per span, each built from what
    the provider returned for that span, and the failure is recorded. *)
Theorem graceful_degradation (t : str) (provider : CorrectionProvider)
        (i : nat) (s : SentenceSpan.t) (e : ProviderError) :
  nth_error (segment t) i = Some s ->
  provider i (SentenceSpan.text s) = inl e ->
  (exists d,
      nth_error (ProofreadResult.sentenceDiffs (assemble t provider)) i = Some d
      /\ SentenceDiff.original d = SentenceSpan.text s
      /\ SentenceDiff.corrected d = SentenceDiff.original d
      /\ count_changes (SentenceDiff.changes d) = 0)
  /\ List.length (ProofreadResult.sentenceDiffs (assemble t provider))
     = List.length (segment t)
  /\ (forall j sj,
         nth_error (segment t) j = Some sj ->
         exists dj,
           nth_error (ProofreadResult.sentenceDiffs (assemble t provider)) j
           = Some dj
           /\ SentenceDiff.sentenceIndex dj = j
           /\ SentenceDiff.original dj = SentenceSpan.text sj
           /\ SentenceDiff.corrected dj
              = match provider j (SentenceSpan.text sj) with
                | inr c => c
                | inl _ => SentenceSpan.text sj
                end
           /\ SentenceDiff.changes dj
              = diff (SentenceDiff.original dj) (SentenceDiff.corrected dj))
  /\ In (i, e) (recorded_failures t provider).
Proof.
  intros Hs Hfail.
  pose proof (segment_index _ _ Hs) as Hi.
  unfold assemble, recorded_failures. simpl.
  rewrite run_built, run_recorded.
  repeat split.
  - exists (sentence_diff provider s).
    rewrite nth_error_map, Hs. simpl.
    unfold correct_or_keep. rewrite Hi, Hfail. simpl.
    repeat split. apply diff_same.
  - apply length_map.
  - intros j sj Hj.
    pose proof (segment_index _ _ Hj) as Hij.
    exists (sentence_diff provider sj).
    rewrite nth_error_map, Hj. simpl.
    unfold correct_or_keep. rewrite Hij.
    destruct (provider j (SentenceSpan.text sj)); repeat split.
  - apply in_flat_map. exists s. split.
    + eapply nth_error_In. exact Hs.
    + unfold correct_or_keep. rewrite Hi, Hfail. simpl. left. reflexivity.
Qed.

(** A tie: the token sequences [a b] and [b a] have two longest common
    subsequences, and two edit sequences realise them; the rules pick the
    one that moves through the original first. *)
Lemma tie_is_broken :
  let a := lit "a" in
  let b := lit "b" in
  EditScript [a; b] [b; a] [(delete, a); (equal, b); (insert, a)]
  /\ EditScript [a; b] [b; a] [(insert, b); (equal, a); (delete, b)]
  /\ matches [(delete, a); (equal, b); (insert, a)] = lcs_length [a; b] [b; a]
  /\ matches [(insert, b); (equal, a); (delete, b)] = lcs_length [a; b] [b; a]
  /\ align [a; b] [b; a] = [(delete, a); (equal, b); (insert, a)].
Proof.
  repeat split; repeat constructor.
Qed.

Lemma diff_deterministic_witness :
  diff (lit "a b") (lit "b a")
  = [ {| ChangeOp.type := delete; ChangeOp.text := lit "a"; ChangeOp.position := 0 |};
      {| ChangeOp.type := equal; ChangeOp.text := lit "b"; ChangeOp.position := 1 |};
      {| ChangeOp.type := insert; ChangeOp.text := lit "a"; ChangeOp.position := 2 |} ].
Proof.
  apply (proj2 (diff_deterministic (lit "a b") (lit "b a"))).
  - apply (proj1 (diff_deterministic (lit "a b") (lit "b a"))).
  - exists [(delete, lit "a"); (equal, lit "b"); (insert, lit "a")].
    split; [|reflexivity].
    change (tokenize (lit "a b")) with [lit "a"; lit "b"].
    change (tokenize (lit "b a")) with [lit "b"; lit "a"].
    apply Aligned_delete; [discriminate|vm_compute; lia|].
    apply Aligned_match.
    apply Aligned_insert_rest. apply Aligned_nil.
Defined.

Lemma graceful_degradation_witness :
  exists d,
    nth_error (ProofreadResult.sentenceDiffs
                 (assemble (lit "One. Two. Three.") flaky)) 1 = Some d
    /\ SentenceDiff.original d = lit "Two."
    /\ SentenceDiff.corrected d = SentenceDiff.original d
    /\ count_changes (SentenceDiff.changes d) = 0.
Proof.
  refine (proj1 (@graceful_degradation (lit "One. Two. Three.") flaky 1
                   (mk_span 5 (lit "Two.") 1) ProviderTimeout _ _)).
  - vm_compute. reflexivity.
  - vm_compute. reflexivity.
Defined.

End PipelineProperties.

(* ================================================================== *)
(** * Properties of the front end *)

Module FrontendProperties.
Import Frontend TextFacts.

Lemma long_text_length : List.length long_text = N.to_nat 100000.
Proof. unfold long_text. apply repeat_length. Qed.

Lemma selection_range_end_lt : selection_range_end < N.to_nat 100000.
Proof. unfold selection_range_end. lia. Qed.

(** A text without CR is its own normal form, and normalising never makes
    a text longer. *)
Lemma normalize_newlines_plain (s : str) :
  Forall (fun c => c <> 13%N) s -> normalize_newlines s = s.
Proof.
  induction 1 as [|c s Hc _ IH]; [reflexivity|].
  simpl. apply N.eqb_neq in Hc. rewrite Hc, IH. reflexivity.
Qed.

Lemma normalize_newlines_length : forall (n : nat) (s : str),
  List.length s <= n -> List.length (normalize_newlines s) <= List.length s.
Proof.
  induction n as [|n IH]; intros s Hn.
  - destruct s; simpl in *; lia.
  - destruct s as [|c s]; [simpl; lia|].
    assert (H : List.length s <= n) by (simpl in Hn; lia).
    pose proof (IH s H) as IHs.
    cbn [normalize_newlines]. destruct (c =? 13)%N.
    + destruct s as [|d s]; [simpl; lia|].
      destruct (d =? 10)%N.
      * assert (H' : List.length s <= n) by (simpl in H; lia).
        pose proof (IH s H') as IHs'.
        cbn [List.length] in *. lia.
      * cbn [List.length] in *. lia.
    + cbn [List.length]. lia.
Qed.

Lemma long_text_plain : Forall (fun c => c <> 13%N) long_text.
Proof.
  unfold long_text. apply Forall_forall. intros c H.
  apply repeat_spec in H. subst c. discriminate.
Qed.

Lemma long_text_one_more : List.length long_text = S selection_range_end.
Proof. rewrite long_text_length. unfold selection_range_end. lia. Qed.

Local Opaque lit trim decimal selection_range_end.

Ltac js_unfold :=
  unfold proofreadText, setLoading, showFinalResult, fetch, response_json,
    property, copyFinalText, copyTextFallback, showCopySuccess, clipboard_writeText,
    execCommand_copy_now, appendChild, removeChild_last,
    alert, console_error, assign, emit, try_finally, try_catch,
    bind, ret, throw, gets, asks, modify, with_dom in *.

Lemma requests_app l1 l2 : requests (l1 ++ l2) = requests l1 ++ requests l2.
Proof.
  induction l1 as [|ev l1 IH]; simpl; [reflexivity|].
  destruct ev; simpl; rewrite IH; reflexivity.
Qed.

(** The requests a call of [proofreadText] sends. *)
Lemma proofreadText_requests env s :
  requests (log (snd (proofreadText env s)))
  = requests (log s)
    ++ (if truthy (trim (textInput_value (dom s)))
        then [proofread_request (trim (textInput_value (dom s)))]
        else []).
Proof.
  js_unfold. simpl.
  destruct (trim (textInput_value (dom s))) as [|c text] eqn:E; simpl.
  - rewrite requests_app. reflexivity.
  - destruct (net env (proofread_request (c :: text))) as [|[okay st [d|]]];
      simpl; try destruct okay; simpl; try (destruct d; simpl);
      rewrite <- ?app_assoc; rewrite requests_app; reflexivity.
Qed.

(** C1.  A call of [proofreadText] sends a request exactly when the input
    is non-empty after trimming, and that request carries the trimmed
    text; on an input that is empty after trimming the call only shows
    the alert and returns. *)
Theorem proofreadText_validates_input (env : Env) (s : State) :
  requests (log (snd (proofreadText env s)))
  = requests (log s)
    ++ (if truthy (trim (textInput_value (dom s)))
        then [proofread_request (trim (textInput_value (dom s)))]
        else [])
  /\ (trim (textInput_value (dom s)) = [] ->
      proofreadText env s
      = (Returned tt,
         {| dom := dom s; clipboard := clipboard s;
            exec_calls := exec_calls s; timers := timers s;
            log := log s ++ [Alert (lit "Please enter some text to proofread.")] |})).
Proof.
  split; [apply proofreadText_requests|].
  intros E. js_unfold. simpl. rewrite E. reflexivity.
Qed.

Lemma proofreadText_validates_input_witness :
  proofreadText legacy_browser (page (lit "   ") [])
  = (Returned tt,
     {| dom := dom (page (lit "   ") []); clipboard := []; exec_calls := 0;
        timers := [];
        log := [Alert (lit "Please enter some text to proofread.")] |}).
Proof.
  refine (proj2 (proofreadText_validates_input legacy_browser (page (lit "   ") [])) _).
  vm_compute. reflexivity.
Defined.

(** C2, as stated, fails: the request sent for the input [a] has no
    [provider] field. *)
Lemma request_has_no_provider_field :
  ~ (forall env s r,
        log s = [] ->
        In r (requests (log (snd (proofreadText env s)))) ->
        conforms_ProofreadRequest r).
Proof.
  intros H.
  specialize (H legacy_browser (page (lit "a") [])
                (proofread_request (lit "a")) eq_refl).
  assert (Hin : In (proofread_request (lit "a"))
                   (requests (log (snd (proofreadText legacy_browser
                                                      (page (lit "a") [])))))).
  { vm_compute. left. reflexivity. }
  apply H in Hin. destruct Hin as [_ [Hp|Hp]]; vm_compute in Hp; discriminate Hp.
Qed.

(** C2, amended.  Every request a call of [proofreadText] sends goes to
    [/api/proofread] by POST and carries an object with a [text] field that
    is non-empty after trimming (it is the trimmed input) and an
    [llm_provider] field whose value is ["mock"]; it has no [provider]
    field. *)
Theorem request_shape (env : Env) (s : State) (r : Request) :
  log s = [] ->
  In r (requests (log (snd (proofreadText env s)))) ->
  exists t,
    url r = lit "/api/proofread"
    /\ method r = lit "POST"
    /\ body r = JSON_stringify [(lit "text", JString t);
                                (lit "llm_provider", JString (lit "mock"))]
    /\ get_field (lit "text")
                 [(lit "text", JString t);
                  (lit "llm_provider", JString (lit "mock"))]
       = Some (JString t)
    /\ get_field (lit "llm_provider")
                 [(lit "text", JString t);
                  (lit "llm_provider", JString (lit "mock"))]
       = Some (JString (lit "mock"))
    /\ get_field (lit "provider")
                 [(lit "text", JString t);
                  (lit "llm_provider", JString (lit "mock"))]
       = None
    /\ t = trim (textInput_value (dom s))
    /\ trim t = t
    /\ trim t <> [].
Proof.
  intros Hlog Hin.
  rewrite proofreadText_requests, Hlog in Hin. simpl in Hin.
  destruct (truthy (trim (textInput_value (dom s)))) eqn:T; simpl in Hin;
    [|contradiction].
  destruct Hin as [<-|[]].
  apply truthy_nonempty in T.
  exists (trim (textInput_value (dom s))).
  repeat split; try (vm_compute; reflexivity).
  - apply trim_idempotent.
  - rewrite trim_idempotent. exact T.
Qed.

Lemma request_shape_witness :
  exists t,
    url (proofread_request (lit "teh cat")) = lit "/api/proofread"
    /\ method (proofread_request (lit "teh cat")) = lit "POST"
    /\ body (proofread_request (lit "teh cat"))
       = JSON_stringify [(lit "text", JString t);
                         (lit "llm_provider", JString (lit "mock"))]
    /\ get_field (lit "text")
                 [(lit "text", JString t);
                  (lit "llm_provider", JString (lit "mock"))]
       = Some (JString t)
    /\ get_field (lit "llm_provider")
                 [(lit "text", JString t);
                  (lit "llm_provider", JString (lit "mock"))]
       = Some (JString (lit "mock"))
    /\ get_field (lit "provider")
                 [(lit "text", JString t);
                  (lit "llm_provider", JString (lit "mock"))]
       = None
    /\ t = trim (textInput_value (dom (page (lit " teh cat ") [])))
    /\ trim t = t
    /\ trim t <> [].
Proof.
  refine (@request_shape legacy_browser (page (lit " teh cat ") [])
                         (proofread_request (lit "teh cat")) _ _).
  - reflexivity.
  - vm_compute. left. reflexivity.
Defined.

(** C8.  A call of [proofreadText] that sends a request returns normally,
    whatever becomes of the request, and [setLoading(false)] is the last
    thing it does: the button is enabled again, its text shown and the
    spinner hidden. *)
Theorem loading_cleared_after_request (env : Env) (s : State) :
  trim (textInput_value (dom s)) <> [] ->
  fst (proofreadText env s) = Returned tt
  /\ proofreadBtn_disabled (dom (snd (proofreadText env s))) = false
  /\ loadingSpinner_display (dom (snd (proofreadText env s))) = lit "none"
  /\ btnText_display (dom (snd (proofreadText env s))) = lit "block"
  /\ exists mid,
       log (snd (proofreadText env s))
       = log s
         ++ [Call (M_setLoading true);
             Fetch (proofread_request (trim (textInput_value (dom s))))]
         ++ mid ++ [Call (M_setLoading false)].
Proof.
  intros Hne. js_unfold. simpl.
  destruct (trim (textInput_value (dom s))) as [|c text] eqn:E; [congruence|].
  simpl.
  destruct (net env (proofread_request (c :: text))) as [|[okay st [d|]]];
    simpl; try destruct okay; simpl; try (destruct d; simpl);
    repeat split; rewrite <- ?app_assoc; simpl;
    eexists; do 3 f_equal;
    match goal with
    | |- ?a :: ?b :: ?rest = _ => change (a :: b :: rest) with ([a; b] ++ rest)
    | |- ?a :: ?b :: ?c :: ?rest = _ =>
        change (a :: b :: c :: rest) with ([a; b; c] ++ rest)
    end; reflexivity.
Qed.

(** C9.  When the fetch rejects or the response is not ok, the call logs
    the error, alerts the user and never enters [showFinalResult]: the
    results section, the corrections count, the final text and the
    visibility of the diff controls are as before the call. *)
Theorem failed_request_leaves_results (env : Env) (s : State) :
  trim (textInput_value (dom s)) <> [] ->
  (net env (proofread_request (trim (textInput_value (dom s)))) = NetworkFailure
   \/ exists r,
        net env (proofread_request (trim (textInput_value (dom s)))) = Responded r
        /\ ok r = false) ->
  (exists x,
      log (snd (proofreadText env s))
      = log s
        ++ [Call (M_setLoading true);
            Fetch (proofread_request (trim (textInput_value (dom s))));
            ConsoleError (lit "Error proofreading text:") x;
            Alert (lit "An error occurred while proofreading. Please try again.");
            Call (M_setLoading false)])
  /\ resultsSection_display (dom (snd (proofreadText env s)))
     = resultsSection_display (dom s)
  /\ correctionsCount_textContent (dom (snd (proofreadText env s)))
     = correctionsCount_textContent (dom s)
  /\ finalText_textContent (dom (snd (proofreadText env s)))
     = finalText_textContent (dom s)
  /\ correctionsContainer_display (dom (snd (proofreadText env s)))
     = correctionsContainer_display (dom s)
  /\ acceptAllBtn_display (dom (snd (proofreadText env s)))
     = acceptAllBtn_display (dom s)
  /\ rejectAllBtn_display (dom (snd (proofreadText env s)))
     = rejectAllBtn_display (dom s).
Proof.
  intros Hne Hfail. js_unfold. simpl.
  destruct (trim (textInput_value (dom s))) as [|c text] eqn:E; [congruence|].
  simpl.
  destruct Hfail as [-> | (r & -> & Hok)]; simpl; [|rewrite Hok; simpl];
    (split; [eexists; rewrite <- ?app_assoc; simpl; reflexivity
            |repeat split; reflexivity]).
Qed.

Lemma failed_request_leaves_results_witness :
  finalText_textContent
    (dom (snd (proofreadText legacy_browser (page (lit "teh cat") (lit "old")))))
  = lit "old".
Proof.
  refine (proj1 (proj2 (proj2 (proj2
            (@failed_request_leaves_results legacy_browser
               (page (lit "teh cat") (lit "old")) _ _))))).
  - vm_compute. discriminate.
  - left. reflexivity.
Defined.

Lemma loading_cleared_after_request_witness :
  proofreadBtn_disabled
    (dom (snd (proofreadText legacy_browser (page (lit "teh cat") [])))) = false.
Proof.
  refine (proj1 (proj2 (@loading_cleared_after_request legacy_browser
                          (page (lit "teh cat") []) _))).
  vm_compute. discriminate.
Defined.

(** A request that is answered well: the payload is put on the page. *)
Lemma answered_request_shows_result (env : Env) (s : State) (r : Response)
      (d : Json) :
  trim (textInput_value (dom s)) <> [] ->
  net env (proofread_request (trim (textInput_value (dom s)))) = Responded r ->
  ok r = true ->
  json_body r = Some d ->
  d <> JsonNull ->
  finalText_textContent (dom (snd (proofreadText env s)))
  = textContent_of (member d (lit "final_text"))
  /\ correctionsCount_textContent (dom (snd (proofreadText env s)))
     = lit "Total changes: " ++ ToString (member d (lit "total_changes"))
  /\ resultsSection_display (dom (snd (proofreadText env s))) = lit "block"
  /\ log (snd (proofreadText env s))
     = log s
       ++ [Call (M_setLoading true);
           Fetch (proofread_request (trim (textInput_value (dom s))));
           Call M_showFinalResult; ScrollIntoView;
           Call (M_setLoading false)].
Proof.
  intros Hne Hnet Hok Hd Hnull. js_unfold. simpl.
  destruct (trim (textInput_value (dom s))) as [|c text] eqn:E; [congruence|].
  simpl. rewrite Hnet. simpl. rewrite Hok. simpl. rewrite Hd. simpl.
  destruct d; try congruence; simpl;
    (repeat split; rewrite <- !app_assoc; reflexivity).
Qed.

Lemma to_response_members (r : Pipeline.ProofreadResult.t) (d : Json) :
  Wire.to_response r = Some d ->
  d <> JsonNull
  /\ member d (lit "final_text")
     = Some (JsonString (Pipeline.ProofreadResult.finalText r))
  /\ member d (lit "total_changes")
     = Some (JsonNumber
               (decimal (Z.of_nat (Pipeline.ProofreadResult.totalChanges r)))).
Proof.
  unfold Wire.to_response.
  destruct (Z.of_nat (Pipeline.ProofreadResult.totalChanges r) <? 2 ^ 53)%Z;
    [|discriminate].
  intros E. injection E as <-.
  split; [discriminate|]. split; vm_compute; reflexivity.
Qed.

(** End to end: when the server answers with the result of the pipeline,
    the page shows the final text of that result and, as the count, the sum
    of the non-equal operations of its sentence diffs. *)
Lemma pipeline_result_is_shown (env : Env) (s : State)
      (r : Pipeline.ProofreadResult.t) (resp : Response) (d : Json) :
  trim (textInput_value (dom s)) <> [] ->
  net env (proofread_request (trim (textInput_value (dom s)))) = Responded resp ->
  ok resp = true ->
  Wire.to_response r = Some d ->
  json_body resp = Some d ->
  finalText_textContent (dom (snd (proofreadText env s)))
  = Pipeline.ProofreadResult.finalText r
  /\ correctionsCount_textContent (dom (snd (proofreadText env s)))
     = lit "Total changes: "
       ++ decimal (Z.of_nat (Pipeline.ProofreadResult.totalChanges r)).
Proof.
  intros Hne Hnet Hok Hd Ed.
  destruct (to_response_members r Hd) as (Hnull & Ef & Et).
  destruct (answered_request_shows_result env s Hne Hnet Hok Ed Hnull)
    as (F & C & _).
  rewrite Ef in F. rewrite Et in C. split; assumption.
Qed.

(** ** Copying *)

Lemma firstn_min_length {A} (n : nat) (l : list A) :
  firstn (Nat.min n (List.length l)) l = firstn n l.
Proof.
  destruct (Nat.le_ge_cases n (List.length l)) as [H|H].
  - rewrite Nat.min_l by exact H. reflexivity.
  - rewrite Nat.min_r by exact H.
    rewrite firstn_all, firstn_all2 by exact H. reflexivity.
Qed.

(** What is selected, hence copied, after [select()] and
    [setSelectionRange(0, 99999)]: at most the first 99999 code units. *)
Lemma selected_after_range (t : TextArea) :
  ta_selected_text (ta_setSelectionRange 0 selection_range_end (ta_select t))
  = firstn selection_range_end (ta_value t).
Proof.
  unfold ta_selected_text, ta_select, ta_setSelectionRange, substring.
  simpl. rewrite Nat.sub_0_r. apply firstn_min_length.
Qed.

(** One call of [copyTextFallback]. *)
Lemma copyTextFallback_run (text : str) (env : Env) (s : State) :
  copyTextFallback text env s
  = (if execCommand_copy env (exec_calls s)
     then Returned tt
     else Thrown (Error (lit "document.execCommand copy failed")),
     {| dom := set_body_children (body_children (dom s)) (dom s);
        clipboard := if execCommand_copy env (exec_calls s)
                     then firstn selection_range_end (normalize_newlines text)
                     else clipboard s;
        exec_calls := S (exec_calls s);
        timers := timers s;
        log := log s ++ [Call M_copyTextFallback] |}).
Proof.
  js_unfold. simpl.
  unfold on_last_child. simpl.
  repeat (progress (rewrite ?rev_unit, ?rev_involutive, ?removelast_last; simpl)).
  destruct (execCommand_copy env (exec_calls s)); simpl;
    repeat (progress (rewrite ?rev_unit, ?rev_involutive, ?removelast_last; simpl));
    rewrite ?selected_after_range; reflexivity.
Qed.

Ltac copy_unfold :=
  unfold copyFinalText, showCopySuccess, clipboard_writeText,
    alert, console_error, assign, emit, try_catch,
    bind, ret, throw, gets, asks, modify, with_dom in *.

(** What a call of [copyFinalText] comes to: either the feedback is shown
    and the clipboard holds what was copied, or the alert is shown, nothing
    was copied, and every copy that was tried had failed. *)
Lemma copyFinalText_outcome (env : Env) (s : State) :
  fst (copyFinalText env s) = Returned tt
  /\ exists evs,
       log (snd (copyFinalText env s)) = log s ++ evs
       /\ ((copyResultBtn_textContent (dom (snd (copyFinalText env s)))
            = lit "Copied!"
            /\ (forall m, ~ In (Alert m) evs)
            /\ In (Call M_showCopySuccess) evs
            /\ (clipboard (snd (copyFinalText env s))
                = finalText_textContent (dom s)
                \/ clipboard (snd (copyFinalText env s))
                   = firstn selection_range_end
                            (normalize_newlines (finalText_textContent (dom s)))))
           \/
           (In (Alert (lit "Failed to copy text to clipboard. Please select and copy the text manually.")) evs
            /\ ~ In (Call M_showCopySuccess) evs
            /\ clipboard (snd (copyFinalText env s)) = clipboard s
            /\ copyResultBtn_textContent (dom (snd (copyFinalText env s)))
               = copyResultBtn_textContent (dom s)
            /\ (navigator_clipboard env && isSecureContext env = true ->
                writeText_resolves env = false)
            /\ execCommand_copy env (exec_calls s) = false)).
Proof.
  copy_unfold. simpl.
  destruct (navigator_clipboard env && isSecureContext env) eqn:Em; simpl.
  - destruct (writeText_resolves env) eqn:Ew; simpl.
    + split; [reflexivity|]. eexists. split; [reflexivity|]. left.
      repeat split; auto.
      * intros m [H|[]]. discriminate H.
      * left. reflexivity.
    + rewrite copyTextFallback_run. simpl.
      destruct (execCommand_copy env (exec_calls s)) eqn:Ex; simpl.
      * split; [reflexivity|]. eexists.
        split; [rewrite <- !app_assoc; simpl; reflexivity|]. left.
        repeat split; auto.
        -- intros m [H|[H|[H|[]]]]; discriminate H.
        -- right. right. left. reflexivity.
      * split; [reflexivity|]. eexists.
        split; [rewrite <- !app_assoc; simpl; reflexivity|]. right.
        repeat split; auto.
        -- right. right. right. left. reflexivity.
        -- intros [H|[H|[H|[H|[]]]]]; discriminate H.
  - rewrite copyTextFallback_run. simpl.
    destruct (execCommand_copy env (exec_calls s)) eqn:Ex; simpl.
    + split; [reflexivity|]. eexists.
      split; [rewrite <- !app_assoc; simpl; reflexivity|]. left.
      repeat split; auto.
      * intros m [H|[H|[]]]; discriminate H.
      * right. left. reflexivity.
    + rewrite copyTextFallback_run. simpl.
      destruct (execCommand_copy env (S (exec_calls s))) eqn:Ex2; simpl.
      * split; [reflexivity|]. eexists.
        split; [rewrite <- !app_assoc; simpl; reflexivity|]. left.
        repeat split; auto.
        -- intros m [H|[H|[H|[H|[]]]]]; discriminate H.
        -- right. right. right. left. reflexivity.
      * split; [reflexivity|]. eexists.
        split; [rewrite <- !app_assoc; simpl; reflexivity|]. right.
        repeat split; auto.
        -- right. right. right. right. left. reflexivity.
        -- intros [H|[H|[H|[H|[H|[]]]]]]; discriminate H.
        -- discriminate.
Qed.

(** The legacy path taken at once: no usable clipboard API, and the first
    [execCommand('copy')] works. *)
Lemma copyFinalText_legacy (env : Env) (s : State) :
  navigator_clipboard env && isSecureContext env = false ->
  execCommand_copy env (exec_calls s) = true ->
  copyFinalText env s
  = (Returned tt,
     {| dom := set_copyResultBtn_background (lit "#10b981")
                 (set_copyResultBtn_textContent (lit "Copied!")
                    (set_body_children (body_children (dom s)) (dom s)));
        clipboard := firstn selection_range_end
                            (normalize_newlines (finalText_textContent (dom s)));
        exec_calls := S (exec_calls s);
        timers := timers s
                  ++ [(2000%N, RestoreCopyButton (copyResultBtn_textContent (dom s)))];
        log := log s ++ [Call M_copyTextFallback; Call M_showCopySuccess] |}).
Proof.
  intros Em Ex. copy_unfold. simpl. rewrite Em. simpl.
  rewrite copyTextFallback_run. simpl. rewrite Ex. simpl.
  rewrite <- app_assoc. reflexivity.
Qed.

(** The modern path: the clipboard API is there and [writeText] settles
    well; the clipboard then holds the displayed text, whole. *)
Lemma copyFinalText_modern (env : Env) (s : State) :
  navigator_clipboard env && isSecureContext env = true ->
  writeText_resolves env = true ->
  copyFinalText env s
  = (Returned tt,
     {| dom := set_copyResultBtn_background (lit "#10b981")
                 (set_copyResultBtn_textContent (lit "Copied!") (dom s));
        clipboard := finalText_textContent (dom s);
        exec_calls := exec_calls s;
        timers := timers s
                  ++ [(2000%N, RestoreCopyButton (copyResultBtn_textContent (dom s)))];
        log := log s ++ [Call M_showCopySuccess] |}).
Proof.
  intros Em Ew. copy_unfold. simpl. rewrite Em. simpl. rewrite Ew. reflexivity.
Qed.


(** On the legacy path a displayed text that is longer than the selection
    range, newlines normalised, is copied short, and the call still reports
    success. *)
Lemma legacy_copy_is_cut (env : Env) (s : State) :
  navigator_clipboard env && isSecureContext env = false ->
  execCommand_copy env (exec_calls s) = true ->
  selection_range_end
  < List.length (normalize_newlines (finalText_textContent (dom s))) ->
  fst (copyFinalText env s) = Returned tt
  /\ copyResultBtn_textContent (dom (snd (copyFinalText env s))) = lit "Copied!"
  /\ clipboard (snd (copyFinalText env s))
     = firstn selection_range_end
              (normalize_newlines (finalText_textContent (dom s)))
  /\ List.length (clipboard (snd (copyFinalText env s))) = selection_range_end
  /\ clipboard (snd (copyFinalText env s)) <> finalText_textContent (dom s).
Proof.
  intros Em Ex Hlong.
  rewrite (copyFinalText_legacy env s Em Ex).
  cbn [fst snd clipboard dom].
  assert (Hlen : List.length (firstn selection_range_end
                                (normalize_newlines
                                   (finalText_textContent (dom s))))
                 = selection_range_end).
  { rewrite length_firstn. lia. }
  split; [reflexivity|]. split; [reflexivity|]. split; [reflexivity|].
  split; [exact Hlen|].
  intros E. rewrite E in Hlen.
  pose proof (@normalize_newlines_length _ (finalText_textContent (dom s))
                (le_n _)).
  lia.
Qed.

(** C10 fails on the legacy path for a long text.  With no usable
    clipboard API and a working [execCommand('copy')], copying a displayed
    text of 100000 characters reports success, yet the clipboard holds
    only its first 99999 characters. *)
Theorem long_text_copy_is_truncated :
  List.length (finalText_textContent (dom (page [] long_text)))
  = S selection_range_end
  /\ fst (copyFinalText legacy_browser (page [] long_text)) = Returned tt
  /\ copyResultBtn_textContent
       (dom (snd (copyFinalText legacy_browser (page [] long_text))))
     = lit "Copied!"
  /\ clipboard (snd (copyFinalText legacy_browser (page [] long_text)))
     = firstn selection_range_end long_text
  /\ List.length (clipboard (snd (copyFinalText legacy_browser (page [] long_text))))
     = selection_range_end
  /\ clipboard (snd (copyFinalText legacy_browser (page [] long_text)))
     <> finalText_textContent (dom (page [] long_text)).
Proof.
  split; [exact long_text_one_more|].
  pose proof (normalize_newlines_plain long_text_plain) as Plain.
  assert (Cut := @legacy_copy_is_cut legacy_browser (page [] long_text)
                   eq_refl eq_refl).
  change (finalText_textContent (dom (page [] long_text))) with long_text in Cut.
  rewrite Plain in Cut. apply Cut.
  rewrite long_text_one_more. apply Nat.lt_succ_diag_r.
Qed.

End FrontendProperties.

(* ================================================================== *)
(** * The text the page sends, and its reconstruction *)

Module ReconstructionProperties.
Import Frontend Pipeline TextFacts SegmenterSpec FrontendProperties.



End ReconstructionProperties.

(* ================================================================== *)
(** * Worked examples *)

Module Examples.
Import Frontend Pipeline.

Example trim_strips_both_ends :
  trim ([9; 32] ++ lit "teh cat" ++ [32; 10; 160])%N = lit "teh cat".
Proof. reflexivity. Qed.

Example trim_keeps_inner_whitespace_only :
  trim (lit "   ") = [] /\ trim (lit "a  b") = lit "a  b".
Proof. split; reflexivity. Qed.

Example segment_three_sentences :
  segment (lit "  Hello world.  How are you?! fine  ")
  = [mk_span 2 (lit "Hello world.") 0;
     mk_span 16 (lit "How are you?!") 1;
     mk_span 30 (lit "fine") 2].
Proof. reflexivity. Qed.

Example segment_keeps_inner_full_stop :
  segment (lit "a.b c. d") = [mk_span 0 (lit "a.b c.") 0; mk_span 7 (lit "d") 1].
Proof. reflexivity. Qed.

Example segment_blank_text : segment (lit "  ") = [].
Proof. reflexivity. Qed.

Example segment_one_sentence :
  segment (lit " no full stop here  ") = [mk_span 1 (lit "no full stop here") 0].
Proof. reflexivity. Qed.

Example join_spans_sample :
  join_spans (lit "  Hello world.  How are you?! fine  ")
             (segment (lit "  Hello world.  How are you?! fine  "))
  = lit "Hello world.  How are you?! fine".
Proof. reflexivity. Qed.

Example tokenize_sample :
  tokenize (lit "  This is  a test. ") = [lit "This"; lit "is"; lit "a"; lit "test."].
Proof. reflexivity. Qed.

Example diff_one_word :
  map (fun o => (ChangeOp.type o, ChangeOp.text o, ChangeOp.position o))
      (diff (lit "some common erors.") (lit "some common errors."))
  = [(equal, lit "some", 0); (equal, lit "common", 1);
     (delete, lit "erors.", 2); (insert, lit "errors.", 3)].
Proof. reflexivity. Qed.

Example diff_from_nothing :
  map (fun o => (ChangeOp.type o, ChangeOp.text o, ChangeOp.position o))
      (diff [] (lit "x y"))
  = [(insert, lit "x", 0); (insert, lit "y", 1)].
Proof. reflexivity. Qed.

(** The scenario of section 8: one sentence diff, one [delete] and one
    [insert], counted as two changes. *)
Example assemble_sample :
  let r := assemble (lit "This is a sample text with some common erors.") mock in
  List.length (ProofreadResult.sentenceDiffs r) = 1
  /\ ProofreadResult.totalChanges r = 2
  /\ ProofreadResult.finalText r
     = lit "This is a sample text with some common errors.".
Proof. repeat split; reflexivity. Qed.

Example assemble_empty :
  assemble [] mock
  = {| ProofreadResult.sentenceDiffs := [];
       ProofreadResult.finalText := [];
       ProofreadResult.totalChanges := 0 |}.
Proof. reflexivity. Qed.

Example assemble_with_a_failure :
  let r := assemble (lit "One. Two. Three.") flaky in
  map SentenceDiff.corrected (ProofreadResult.sentenceDiffs r)
  = [lit "One.!"; lit "Two."; lit "Three.!"]
  /\ ProofreadResult.finalText r = lit "One.! Two. Three.!"
  /\ recorded_failures (lit "One. Two. Three.") flaky = [(1, ProviderTimeout)].
Proof. repeat split; reflexivity. Qed.

Example reconstruct_with_flags :
  reconstruct (ProofreadResult.sentenceDiffs
                 (assemble (lit "One. Two. Three.") flaky))
              (Some [true; false; false])
  = lit "One.! Two. Three.".
Proof. reflexivity. Qed.

(** A page whose server answers with two changes. *)
Example proofread_shows_result :
  let env := {| net := fun _ => Responded
                         {| ok := true; status := 200;
                            json_body :=
                              Some (JsonObject
                                      (Field (lit "final_text")
                                         (JsonString (lit "the cat"))
                                         (Field (lit "total_changes")
                                            (JsonNumber (lit "2")) NoFields))) |};
                navigator_clipboard := true; isSecureContext := true;
                writeText_resolves := true;
                execCommand_copy := fun _ => true |} in
  let s := snd (proofreadText env (page (lit " teh cat ") [])) in
  finalText_textContent (dom s) = lit "the cat"
  /\ correctionsCount_textContent (dom s) = lit "Total changes: 2"
  /\ resultsSection_display (dom s) = lit "block"
  /\ proofreadBtn_disabled (dom s) = false
  /\ requests (log s) = [proofread_request (lit "teh cat")].
Proof. repeat split; reflexivity. Qed.

(** A body shaped as the README documents the response, with the sentence
    diffs only: the two fields the script reads are missing. *)
Example proofread_body_without_the_fields :
  let env := {| net := fun _ => Responded
                         {| ok := true; status := 200;
                            json_body :=
                              Some (JsonObject
                                      (Field (lit "sentence_diffs")
                                         (JsonArray NoItems) NoFields)) |};
                navigator_clipboard := true; isSecureContext := true;
                writeText_resolves := true;
                execCommand_copy := fun _ => true |} in
  let s := snd (proofreadText env (page (lit "teh cat") (lit "old"))) in
  finalText_textContent (dom s) = []
  /\ correctionsCount_textContent (dom s) = lit "Total changes: undefined"
  /\ resultsSection_display (dom s) = lit "block".
Proof. repeat split; reflexivity. Qed.

Example proofread_null_body :
  let env := {| net := fun _ => Responded
                         {| ok := true; status := 200; json_body := Some JsonNull |};
                navigator_clipboard := true; isSecureContext := true;
                writeText_resolves := true;
                execCommand_copy := fun _ => true |} in
  log (snd (proofreadText env (page (lit "teh cat") [])))
  = [Call (M_setLoading true);
     Fetch (proofread_request (lit "teh cat"));
     ConsoleError (lit "Error proofreading text:")
                  (NullProperty (lit "final_text"));
     Alert (lit "An error occurred while proofreading. Please try again.");
     Call (M_setLoading false)].
Proof. reflexivity. Qed.

Example to_string_samples :
  to_string (JsonArray (Item (JsonNumber (lit "1"))
                          (Item JsonNull
                             (Item (JsonArray (Item (JsonBool true)
                                                 (Item (JsonString (lit "x")) NoItems)))
                                (Item (JsonObject NoFields) NoItems)))))
  = lit "1,,true,x,[object Object]".
Proof. reflexivity. Qed.

Example normalize_newlines_sample :
  normalize_newlines [97; 13; 10; 98; 13; 99; 10; 13]%N = [97; 10; 98; 10; 99; 10; 10]%N.
Proof. reflexivity. Qed.

(** On the legacy path the copy is taken from the textarea, whose value has
    its newlines normalised. *)
Example legacy_copy_normalises_newlines :
  clipboard (snd (copyFinalText legacy_browser
                    (page [] [97; 13; 10; 98; 13; 99]%N)))
  = [97; 10; 98; 10; 99]%N.
Proof. reflexivity. Qed.

Example proofread_server_error :
  let env := {| net := fun _ => Responded
                         {| ok := false; status := 500; json_body := None |};
                navigator_clipboard := true; isSecureContext := true;
                writeText_resolves := true;
                execCommand_copy := fun _ => true |} in
  log (snd (proofreadText env (page (lit "teh cat") [])))
  = [Call (M_setLoading true);
     Fetch (proofread_request (lit "teh cat"));
     ConsoleError (lit "Error proofreading text:")
                  (Error (lit "HTTP error! status: 500"));
     Alert (lit "An error occurred while proofreading. Please try again.");
     Call (M_setLoading false)].
Proof. reflexivity. Qed.

Example copy_on_the_modern_path :
  let env := {| net := fun _ => NetworkFailure;
                navigator_clipboard := true; isSecureContext := true;
                writeText_resolves := true;
                execCommand_copy := fun _ => false |} in
  let s := snd (copyFinalText env (page [] (lit "the cat"))) in
  clipboard s = lit "the cat"
  /\ copyResultBtn_textContent (dom s) = lit "Copied!"
  /\ timers s = [(2000%N, RestoreCopyButton (lit "Copy"))].
Proof. repeat split; reflexivity. Qed.

Example copy_when_everything_fails :
  let env := {| net := fun _ => NetworkFailure;
                navigator_clipboard := true; isSecureContext := true;
                writeText_resolves := false;
                execCommand_copy := fun _ => false |} in
  let s := snd (copyFinalText env (page [] (lit "the cat"))) in
  clipboard s = []
  /\ copyResultBtn_textContent (dom s) = lit "Copy"
  /\ log s
     = [ConsoleError (lit "Failed to copy text:") ClipboardRejected;
        Call M_copyTextFallback;
        ConsoleError (lit "Fallback copy also failed:")
                     (Error (lit "document.execCommand copy failed"));
        Alert (lit "Failed to copy text to clipboard. Please select and copy the text manually.")].
Proof. repeat split; reflexivity. Qed.

End Examples.

(* ================================================================== *)
(** * More properties of the front end *)

Module AppProperties.
Import Frontend ProofreaderApp TextFacts DiffSpec FrontendProperties.

Lemma trim_nil : trim [] = [].
Proof. reflexivity. Qed.

Local Opaque lit trim decimal selection_range_end.

(** ** [proofreadText] *)

(** One call of [proofreadText], case by case. *)
Lemma proofreadText_run (env : Env) (s : State) :
  proofreadText env s
  = (Returned tt,
     let loading :=
       set_loadingSpinner_display (lit "block")
         (set_btnText_display (lit "none")
            (set_proofreadBtn_disabled true (dom s))) in
     let idle (d : Dom) :=
       set_loadingSpinner_display (lit "none")
         (set_btnText_display (lit "block")
            (set_proofreadBtn_disabled false d)) in
     let failed (text : str) (x : JsError) :=
       {| dom := idle loading; clipboard := clipboard s;
          exec_calls := exec_calls s; timers := timers s;
          log := log s
                 ++ [Call (M_setLoading true); Fetch (proofread_request text);
                     ConsoleError (lit "Error proofreading text:") x;
                     Alert (lit "An error occurred while proofreading. Please try again.");
                     Call (M_setLoading false)] |} in
     match trim (textInput_value (dom s)) with
     | [] =>
         {| dom := dom s; clipboard := clipboard s; exec_calls := exec_calls s;
            timers := timers s;
            log := log s ++ [Alert (lit "Please enter some text to proofread.")] |}
     | c :: rest =>
         match net env (proofread_request (c :: rest)) with
         | NetworkFailure => failed (c :: rest) FetchRejected
         | Responded r =>
             if ok r
             then match json_body r with
                  | None => failed (c :: rest) JsonRejected
                  | Some JsonNull =>
                      failed (c :: rest) (NullProperty (lit "final_text"))
                  | Some d =>
                      {| dom := idle
                                  (set_resultsSection_display (lit "block")
                                     (set_finalText_textContent
                                        (textContent_of
                                           (member d (lit "final_text")))
                                        (set_correctionsCount_textContent
                                           (lit "Total changes: "
                                              ++ ToString
                                                   (member d (lit "total_changes")))
                                           (set_rejectAllBtn_display (lit "none")
                                              (set_acceptAllBtn_display (lit "none")
                                                 (set_correctionsContainer_display
                                                    (lit "none") loading))))));
                         clipboard := clipboard s; exec_calls := exec_calls s;
                         timers := timers s;
                         log := log s
                                ++ [Call (M_setLoading true);
                                    Fetch (proofread_request (c :: rest));
                                    Call M_showFinalResult; ScrollIntoView;
                                    Call (M_setLoading false)] |}
                  end
             else failed (c :: rest)
                         (Error (lit "HTTP error! status: "
                                   ++ decimal (Z.of_N (status r))))
         end
     end).
Proof.
  js_unfold. simpl.
  destruct (trim (textInput_value (dom s))) as [|c text]; simpl; [reflexivity|].
  destruct (net env (proofread_request (c :: text))) as [|[okay st [d|]]];
    simpl; try destruct okay; simpl; try (destruct d; simpl);
    rewrite <- ?app_assoc; reflexivity.
Qed.

Ltac proofread_cases env s :=
  rewrite (proofreadText_run env s); cbv zeta;
  destruct (trim (textInput_value (dom s))) as [|?c ?text] eqn:?Etrim;
    [|match goal with
      | |- context [net env ?r] =>
          destruct (net env r) as [|[?okay ?st [?d|]]] eqn:?Enet;
            try destruct okay;
            try match goal with d : Json |- _ => destruct d end
      end];
    cbn [fst snd dom clipboard exec_calls timers log ok json_body status].

Lemma proofreadText_returns env s : fst (proofreadText env s) = Returned tt.
Proof. rewrite proofreadText_run. reflexivity. Qed.

Lemma proofreadText_body env s :
  body_children (dom (snd (proofreadText env s))) = body_children (dom s).
Proof. proofread_cases env s; reflexivity. Qed.

Lemma proofreadText_diff_controls env s :
  acceptAllBtn_display (dom s) = lit "none" ->
  rejectAllBtn_display (dom s) = lit "none" ->
  acceptAllBtn_display (dom (snd (proofreadText env s))) = lit "none"
  /\ rejectAllBtn_display (dom (snd (proofreadText env s))) = lit "none".
Proof. intros Ha Hr. proofread_cases env s; simpl; auto. Qed.



(** X2.  A response with an ok status whose body cannot be read as JSON is
    handled like a failed request: the error is logged, the user alerted,
    nothing of the results is touched, and the button is enabled again. *)
Theorem unreadable_body_is_an_error (env : Env) (s : State) (r : Response) :
  trim (textInput_value (dom s)) <> [] ->
  net env (proofread_request (trim (textInput_value (dom s)))) = Responded r ->
  ok r = true ->
  json_body r = None ->
  log (snd (proofreadText env s))
  = log s
    ++ [Call (M_setLoading true);
        Fetch (proofread_request (trim (textInput_value (dom s))));
        ConsoleError (lit "Error proofreading text:") JsonRejected;
        Alert (lit "An error occurred while proofreading. Please try again.");
        Call (M_setLoading false)]
  /\ resultsSection_display (dom (snd (proofreadText env s)))
     = resultsSection_display (dom s)
  /\ correctionsCount_textContent (dom (snd (proofreadText env s)))
     = correctionsCount_textContent (dom s)
  /\ finalText_textContent (dom (snd (proofreadText env s)))
     = finalText_textContent (dom s)
  /\ proofreadBtn_disabled (dom (snd (proofreadText env s))) = false.
Proof.
  intros Hne Hnet Hok Hd. rewrite (proofreadText_run env s). cbv zeta.
  destruct (trim (textInput_value (dom s))) as [|c text] eqn:E; [congruence|].
  rewrite Hnet, Hok, Hd. simpl. repeat split.
Qed.

Lemma unreadable_body_is_an_error_witness :
  finalText_textContent
    (dom (snd (proofreadText
                 {| net := fun _ => Responded
                              {| ok := true; status := 200; json_body := None |};
                    navigator_clipboard := true; isSecureContext := true;
                    writeText_resolves := true;
                    execCommand_copy := fun _ => true |}
                 (page (lit "teh cat") (lit "old")))))
  = lit "old".
Proof.
  refine (proj1 (proj2 (proj2 (proj2
            (@unreadable_body_is_an_error _ (page (lit "teh cat") (lit "old"))
               {| ok := true; status := 200; json_body := None |} _ _ _ _))))).
  - vm_compute. discriminate.
  - reflexivity.
  - reflexivity.
  - reflexivity.
Defined.

(** X3.  Whatever becomes of the request, [proofreadText] leaves the text
    box as the user typed it (the trimmed text goes into the request only),
    and never touches the clipboard, the copy button, the pending timers or
    the count of copy commands. *)
Theorem proofreadText_keeps_input (env : Env) (s : State) :
  textInput_value (dom (snd (proofreadText env s))) = textInput_value (dom s)
  /\ clipboard (snd (proofreadText env s)) = clipboard s
  /\ copyResultBtn_textContent (dom (snd (proofreadText env s)))
     = copyResultBtn_textContent (dom s)
  /\ copyResultBtn_background (dom (snd (proofreadText env s)))
     = copyResultBtn_background (dom s)
  /\ timers (snd (proofreadText env s)) = timers s
  /\ exec_calls (snd (proofreadText env s)) = exec_calls s.
Proof.
  proofread_cases env s; simpl; repeat split.
Qed.

(** X19.  The three ways a sent request can fail (the fetch rejects, the
    status is not ok, the body cannot be read) look the same on the page:
    the same alert, the same page afterwards, the results untouched; only
    the error written to the console tells them apart. *)
Theorem failures_look_alike (env1 env2 : Env) (s : State) :
  trim (textInput_value (dom s)) <> [] ->
  (net env1 (proofread_request (trim (textInput_value (dom s)))) = NetworkFailure
   \/ exists r,
        net env1 (proofread_request (trim (textInput_value (dom s)))) = Responded r
        /\ (ok r = false \/ json_body r = None)) ->
  (net env2 (proofread_request (trim (textInput_value (dom s)))) = NetworkFailure
   \/ exists r,
        net env2 (proofread_request (trim (textInput_value (dom s)))) = Responded r
        /\ (ok r = false \/ json_body r = None)) ->
  dom (snd (proofreadText env1 s)) = dom (snd (proofreadText env2 s))
  /\ exists x1 x2,
       log (snd (proofreadText env1 s))
       = log s
         ++ [Call (M_setLoading true);
             Fetch (proofread_request (trim (textInput_value (dom s))));
             ConsoleError (lit "Error proofreading text:") x1;
             Alert (lit "An error occurred while proofreading. Please try again.");
             Call (M_setLoading false)]
       /\ log (snd (proofreadText env2 s))
          = log s
            ++ [Call (M_setLoading true);
                Fetch (proofread_request (trim (textInput_value (dom s))));
                ConsoleError (lit "Error proofreading text:") x2;
                Alert (lit "An error occurred while proofreading. Please try again.");
                Call (M_setLoading false)].
Proof.
  intros Hne F1 F2.
  assert (Fail : forall env,
             (net env (proofread_request (trim (textInput_value (dom s))))
              = NetworkFailure
              \/ exists r,
                   net env (proofread_request (trim (textInput_value (dom s))))
                   = Responded r
                   /\ (ok r = false \/ json_body r = None)) ->
             exists x,
               snd (proofreadText env s)
               = {| dom := set_loadingSpinner_display (lit "none")
                             (set_btnText_display (lit "block")
                                (set_proofreadBtn_disabled false
                                   (set_loadingSpinner_display (lit "block")
                                      (set_btnText_display (lit "none")
                                         (set_proofreadBtn_disabled true (dom s))))));
                    clipboard := clipboard s; exec_calls := exec_calls s;
                    timers := timers s;
                    log := log s
                           ++ [Call (M_setLoading true);
                               Fetch (proofread_request
                                        (trim (textInput_value (dom s))));
                               ConsoleError (lit "Error proofreading text:") x;
                               Alert (lit "An error occurred while proofreading. Please try again.");
                               Call (M_setLoading false)] |}).
  { intros env F. rewrite (proofreadText_run env s). cbv zeta. cbn [snd].
    destruct (trim (textInput_value (dom s))) as [|c text]; [congruence|].
    destruct F as [->|(r & -> & [Hok|Hbody])].
    - eexists. reflexivity.
    - rewrite Hok. eexists. reflexivity.
    - rewrite Hbody. destruct (ok r); eexists; reflexivity. }
  destruct (Fail env1 F1) as (x1 & E1).
  destruct (Fail env2 F2) as (x2 & E2).
  rewrite E1, E2. split; [reflexivity|].
  exists x1, x2. split; reflexivity.
Qed.

Lemma failures_look_alike_witness :
  dom (snd (proofreadText legacy_browser (page (lit "teh cat") [])))
  = dom (snd (proofreadText
                {| net := fun _ => Responded
                             {| ok := false; status := 500; json_body := None |};
                   navigator_clipboard := false; isSecureContext := false;
                   writeText_resolves := false;
                   execCommand_copy := fun _ => true |}
                (page (lit "teh cat") []))).
Proof.
  refine (proj1 (@failures_look_alike legacy_browser _ (page (lit "teh cat") [])
                   _ _ _)).
  - vm_compute. discriminate.
  - left. reflexivity.
  - right. eexists. split; [reflexivity|]. left. reflexivity.
Defined.

(** ** Copying *)

(** One call of [copyFinalText], case by case. *)
Lemma copyFinalText_run (env : Env) (s : State) :
  copyFinalText env s
  = (Returned tt,
     let text := finalText_textContent (dom s) in
     let n := exec_calls s in
     let tidy := set_body_children (body_children (dom s)) (dom s) in
     let copied (d : Dom) :=
       set_copyResultBtn_background (lit "#10b981")
         (set_copyResultBtn_textContent (lit "Copied!") d) in
     let later :=
       timers s ++ [(2000%N, RestoreCopyButton (copyResultBtn_textContent (dom s)))] in
     let failure := Error (lit "document.execCommand copy failed") in
     let alerted (calls : nat) (before : list Event) :=
       {| dom := tidy; clipboard := clipboard s; exec_calls := calls;
          timers := timers s;
          log := log s ++ before
                 ++ [Call M_copyTextFallback;
                     ConsoleError (lit "Fallback copy also failed:") failure;
                     Alert (lit "Failed to copy text to clipboard. Please select and copy the text manually.")] |} in
     let through_fallback (calls : nat) (before : list Event) :=
       {| dom := copied tidy;
          clipboard := firstn selection_range_end (normalize_newlines text);
          exec_calls := calls; timers := later;
          log := log s ++ before
                 ++ [Call M_copyTextFallback; Call M_showCopySuccess] |} in
     if navigator_clipboard env && isSecureContext env
     then if writeText_resolves env
          then {| dom := copied (dom s); clipboard := text; exec_calls := n;
                  timers := later; log := log s ++ [Call M_showCopySuccess] |}
          else if execCommand_copy env n
               then through_fallback (S n)
                      [ConsoleError (lit "Failed to copy text:") ClipboardRejected]
               else alerted (S n)
                      [ConsoleError (lit "Failed to copy text:") ClipboardRejected]
     else if execCommand_copy env n
          then through_fallback (S n) []
          else if execCommand_copy env (S n)
               then through_fallback (S (S n))
                      [Call M_copyTextFallback;
                       ConsoleError (lit "Failed to copy text:") failure]
               else alerted (S (S n))
                      [Call M_copyTextFallback;
                       ConsoleError (lit "Failed to copy text:") failure]).
Proof.
  copy_unfold. simpl.
  destruct (navigator_clipboard env && isSecureContext env); simpl.
  - destruct (writeText_resolves env); simpl; [reflexivity|].
    rewrite copyTextFallback_run. simpl.
    destruct (execCommand_copy env (exec_calls s)); simpl;
      rewrite <- ?app_assoc; reflexivity.
  - rewrite copyTextFallback_run. simpl.
    destruct (execCommand_copy env (exec_calls s)); simpl;
      [rewrite <- ?app_assoc; reflexivity|].
    rewrite copyTextFallback_run. simpl.
    destruct (execCommand_copy env (S (exec_calls s))); simpl;
      rewrite <- ?app_assoc; reflexivity.
Qed.

Ltac copy_cases env s :=
  rewrite (copyFinalText_run env s); cbv zeta;
  destruct (navigator_clipboard env && isSecureContext env) eqn:?Emodern;
    [destruct (writeText_resolves env) eqn:?Ewrite;
       [|destruct (execCommand_copy env (exec_calls s)) eqn:?Eexec]
    |destruct (execCommand_copy env (exec_calls s)) eqn:?Eexec;
       [|destruct (execCommand_copy env (S (exec_calls s))) eqn:?Eexec2]];
    cbn [fst snd dom clipboard exec_calls timers log].

Lemma copyFinalText_body env s :
  body_children (dom (snd (copyFinalText env s))) = body_children (dom s).
Proof. copy_cases env s; reflexivity. Qed.

Lemma copyFinalText_diff_controls env s :
  acceptAllBtn_display (dom (snd (copyFinalText env s))) = acceptAllBtn_display (dom s)
  /\ rejectAllBtn_display (dom (snd (copyFinalText env s)))
     = rejectAllBtn_display (dom s).
Proof. copy_cases env s; split; reflexivity. Qed.

Lemma copyFinalText_requests env s :
  requests (log (snd (copyFinalText env s))) = requests (log s).
Proof.
  copy_cases env s; rewrite requests_app; simpl; apply app_nil_r.
Qed.

(** X4.  [copyTextFallback] always takes its temporary textarea off the
    page again, also when the copy command fails; it runs the copy command
    once and throws exactly when the command reports failure, and then the
    clipboard is as before.  On success the clipboard holds what was
    selected in the textarea: the text with its newlines normalised, cut
    after 99999 code units. *)
Theorem fallback_cleans_up (text : str) (env : Env) (s : State) :
  body_children (dom (snd (copyTextFallback text env s))) = body_children (dom s)
  /\ exec_calls (snd (copyTextFallback text env s)) = S (exec_calls s)
  /\ (execCommand_copy env (exec_calls s) = true ->
      fst (copyTextFallback text env s) = Returned tt
      /\ clipboard (snd (copyTextFallback text env s))
         = firstn selection_range_end (normalize_newlines text))
  /\ (execCommand_copy env (exec_calls s) = false ->
      fst (copyTextFallback text env s)
      = Thrown (Error (lit "document.execCommand copy failed"))
      /\ clipboard (snd (copyTextFallback text env s)) = clipboard s).
Proof.
  rewrite copyTextFallback_run. cbn [fst snd dom clipboard exec_calls].
  split; [reflexivity|]. split; [reflexivity|].
  split; intros ->; split; reflexivity.
Qed.

Lemma fallback_cleans_up_witness :
  (fst (copyTextFallback [97; 13; 10; 98]%N legacy_browser (page [] []))
   = Returned tt
   /\ clipboard (snd (copyTextFallback [97; 13; 10; 98]%N legacy_browser
                        (page [] [])))
      = firstn selection_range_end (normalize_newlines [97; 13; 10; 98]%N))
  /\ (fst (copyTextFallback (lit "the cat")
             {| net := fun _ => NetworkFailure; navigator_clipboard := false;
                isSecureContext := false; writeText_resolves := false;
                execCommand_copy := fun _ => false |} (page [] (lit "x")))
      = Thrown (Error (lit "document.execCommand copy failed"))
      /\ clipboard (snd (copyTextFallback (lit "the cat")
             {| net := fun _ => NetworkFailure; navigator_clipboard := false;
                isSecureContext := false; writeText_resolves := false;
                execCommand_copy := fun _ => false |} (page [] (lit "x"))))
         = clipboard (page [] (lit "x"))).
Proof.
  split.
  - refine (proj1 (proj2 (proj2 (fallback_cleans_up [97; 13; 10; 98]%N
                                   legacy_browser (page [] [])))) _).
    reflexivity.
  - refine (proj2 (proj2 (proj2 (fallback_cleans_up (lit "the cat") _
                                   (page [] (lit "x"))))) _).
    reflexivity.
Defined.

(** X5.  For a displayed text of at most 99999 code units a call of
    [copyFinalText] has one of two ends.  Either the button reads Copied!
    and the clipboard holds the whole text: the displayed text itself on
    the clipboard API path, the displayed text with its newlines
    normalised on the textarea path, which are the same text when it has
    no CR.  Or the clipboard is untouched, the button is as before and the
    last thing logged is the alert. *)
Theorem short_text_copy_is_whole (env : Env) (s : State) :
  List.length (finalText_textContent (dom s)) <= selection_range_end ->
  (copyResultBtn_textContent (dom (snd (copyFinalText env s))) = lit "Copied!"
   /\ (clipboard (snd (copyFinalText env s)) = finalText_textContent (dom s)
       \/ clipboard (snd (copyFinalText env s))
          = normalize_newlines (finalText_textContent (dom s)))
   /\ (Forall (fun c => c <> 13%N) (finalText_textContent (dom s)) ->
       clipboard (snd (copyFinalText env s)) = finalText_textContent (dom s)))
  \/ (clipboard (snd (copyFinalText env s)) = clipboard s
      /\ copyResultBtn_textContent (dom (snd (copyFinalText env s)))
         = copyResultBtn_textContent (dom s)
      /\ exists before,
           log (snd (copyFinalText env s))
           = log s ++ before
             ++ [Alert (lit "Failed to copy text to clipboard. Please select and copy the text manually.")]).
Proof.
  intros Hshort.
  assert (Hnorm : firstn selection_range_end
                         (normalize_newlines (finalText_textContent (dom s)))
                  = normalize_newlines (finalText_textContent (dom s))).
  { apply firstn_all2.
    pose proof (@normalize_newlines_length _ (finalText_textContent (dom s))
                  (le_n _)).
    lia. }
  copy_cases env s;
    first [ left; rewrite ?Hnorm;
            split; [reflexivity|];
            split; [first [left; reflexivity | right; reflexivity]|];
            intros Plain; rewrite ?(normalize_newlines_plain Plain); reflexivity
          | right; split; [reflexivity|split; [reflexivity|]];
            match goal with
            | |- exists before, _ ++ ?B ++ [?a; ?b; ?c] = _ =>
                exists (B ++ [a; b]); rewrite <- (app_assoc B); reflexivity
            end ].
Qed.

Lemma short_text_copy_is_whole_witness :
  (copyResultBtn_textContent
     (dom (snd (copyFinalText legacy_browser (page [] [97; 13; 98]%N))))
   = lit "Copied!"
   /\ (clipboard (snd (copyFinalText legacy_browser (page [] [97; 13; 98]%N)))
       = finalText_textContent (dom (page [] [97; 13; 98]%N))
       \/ clipboard (snd (copyFinalText legacy_browser (page [] [97; 13; 98]%N)))
          = normalize_newlines (finalText_textContent (dom (page [] [97; 13; 98]%N))))
   /\ (Forall (fun c => c <> 13%N)
              (finalText_textContent (dom (page [] [97; 13; 98]%N))) ->
       clipboard (snd (copyFinalText legacy_browser (page [] [97; 13; 98]%N)))
       = finalText_textContent (dom (page [] [97; 13; 98]%N))))
  \/ (clipboard (snd (copyFinalText legacy_browser (page [] [97; 13; 98]%N)))
      = clipboard (page [] [97; 13; 98]%N)
      /\ copyResultBtn_textContent
           (dom (snd (copyFinalText legacy_browser (page [] [97; 13; 98]%N))))
         = copyResultBtn_textContent (dom (page [] [97; 13; 98]%N))
      /\ exists before,
           log (snd (copyFinalText legacy_browser (page [] [97; 13; 98]%N)))
           = log (page [] [97; 13; 98]%N) ++ before
             ++ [Alert (lit "Failed to copy text to clipboard. Please select and copy the text manually.")]).
Proof.
  refine (@short_text_copy_is_whole legacy_browser (page [] [97; 13; 98]%N) _).
  apply Nat.leb_le. vm_compute. reflexivity.
Defined.

(** X6.  With the clipboard API present in a secure context and
    [writeText] settling well, the clipboard gets the displayed text whole,
    whatever its length; no textarea is created, the copy command is not
    used and nothing is logged to the console. *)
Theorem modern_copy_is_whole (env : Env) (s : State) :
  navigator_clipboard env = true ->
  isSecureContext env = true ->
  writeText_resolves env = true ->
  clipboard (snd (copyFinalText env s)) = finalText_textContent (dom s)
  /\ exec_calls (snd (copyFinalText env s)) = exec_calls s
  /\ body_children (dom (snd (copyFinalText env s))) = body_children (dom s)
  /\ copyResultBtn_textContent (dom (snd (copyFinalText env s))) = lit "Copied!"
  /\ log (snd (copyFinalText env s)) = log s ++ [Call M_showCopySuccess].
Proof.
  intros Hc Hs Hw. rewrite (copyFinalText_run env s). cbv zeta.
  rewrite Hc, Hs, Hw. simpl. repeat split.
Qed.

Lemma modern_copy_is_whole_witness :
  clipboard (snd (copyFinalText
                    {| net := fun _ => NetworkFailure;
                       navigator_clipboard := true; isSecureContext := true;
                       writeText_resolves := true;
                       execCommand_copy := fun _ => false |}
                    (page [] (lit "the cat"))))
  = lit "the cat".
Proof.
  refine (proj1 (@modern_copy_is_whole _ (page [] (lit "the cat")) _ _ _));
    reflexivity.
Defined.

(** X7.  When the clipboard API is there but [writeText] rejects, the
    legacy copy is tried once: if the copy command works the clipboard
    holds the displayed text, newlines normalised and cut after 99999 code
    units, the feedback is shown and there is no alert; if it fails the
    user is alerted and the button is left alone.  Either way the
    rejection is logged first. *)
Theorem rejected_write_falls_back (env : Env) (s : State) :
  navigator_clipboard env = true ->
  isSecureContext env = true ->
  writeText_resolves env = false ->
  exec_calls (snd (copyFinalText env s)) = S (exec_calls s)
  /\ (execCommand_copy env (exec_calls s) = true ->
      clipboard (snd (copyFinalText env s))
      = firstn selection_range_end
               (normalize_newlines (finalText_textContent (dom s)))
      /\ copyResultBtn_textContent (dom (snd (copyFinalText env s))) = lit "Copied!"
      /\ log (snd (copyFinalText env s))
         = log s ++ [ConsoleError (lit "Failed to copy text:") ClipboardRejected;
                     Call M_copyTextFallback; Call M_showCopySuccess])
  /\ (execCommand_copy env (exec_calls s) = false ->
      clipboard (snd (copyFinalText env s)) = clipboard s
      /\ copyResultBtn_textContent (dom (snd (copyFinalText env s)))
         = copyResultBtn_textContent (dom s)
      /\ timers (snd (copyFinalText env s)) = timers s
      /\ log (snd (copyFinalText env s))
         = log s ++ [ConsoleError (lit "Failed to copy text:") ClipboardRejected;
                     Call M_copyTextFallback;
                     ConsoleError (lit "Fallback copy also failed:")
                                  (Error (lit "document.execCommand copy failed"));
                     Alert (lit "Failed to copy text to clipboard. Please select and copy the text manually.")]).
Proof.
  intros Hc Hs Hw. rewrite (copyFinalText_run env s). cbv zeta.
  rewrite Hc, Hs, Hw. simpl.
  split; [destruct (execCommand_copy env (exec_calls s)); reflexivity|].
  split; intros ->; repeat split.
Qed.

Lemma rejected_write_falls_back_witness :
  (clipboard (snd (copyFinalText
                     {| net := fun _ => NetworkFailure;
                        navigator_clipboard := true; isSecureContext := true;
                        writeText_resolves := false;
                        execCommand_copy := fun _ => true |}
                     (page [] (lit "the cat"))))
   = firstn selection_range_end (normalize_newlines (lit "the cat")))
  /\ (clipboard (snd (copyFinalText
                        {| net := fun _ => NetworkFailure;
                           navigator_clipboard := true; isSecureContext := true;
                           writeText_resolves := false;
                           execCommand_copy := fun _ => false |}
                        (page [] (lit "the cat"))))
      = []).
Proof.
  split.
  - refine (proj1 (proj1 (proj2 (@rejected_write_falls_back _
                            (page [] (lit "the cat")) _ _ _)) _)); reflexivity.
  - refine (proj1 (proj2 (proj2 (@rejected_write_falls_back _
                            (page [] (lit "the cat")) _ _ _)) _)); reflexivity.
Defined.

(** X8.  Without a usable clipboard API the legacy copy is the first
    attempt, and a failed first attempt is repeated once: the copy command
    runs twice, and the second run decides between the feedback, with the
    displayed text on the clipboard (newlines normalised, cut after 99999
    code units), and the alert. *)
Theorem legacy_copy_is_retried (env : Env) (s : State) :
  navigator_clipboard env && isSecureContext env = false ->
  execCommand_copy env (exec_calls s) = false ->
  exec_calls (snd (copyFinalText env s)) = S (S (exec_calls s))
  /\ body_children (dom (snd (copyFinalText env s))) = body_children (dom s)
  /\ (execCommand_copy env (S (exec_calls s)) = true ->
      clipboard (snd (copyFinalText env s))
      = firstn selection_range_end
               (normalize_newlines (finalText_textContent (dom s)))
      /\ copyResultBtn_textContent (dom (snd (copyFinalText env s))) = lit "Copied!"
      /\ log (snd (copyFinalText env s))
         = log s ++ [Call M_copyTextFallback;
                     ConsoleError (lit "Failed to copy text:")
                                  (Error (lit "document.execCommand copy failed"));
                     Call M_copyTextFallback; Call M_showCopySuccess])
  /\ (execCommand_copy env (S (exec_calls s)) = false ->
      clipboard (snd (copyFinalText env s)) = clipboard s
      /\ copyResultBtn_textContent (dom (snd (copyFinalText env s)))
         = copyResultBtn_textContent (dom s)
      /\ log (snd (copyFinalText env s))
         = log s ++ [Call M_copyTextFallback;
                     ConsoleError (lit "Failed to copy text:")
                                  (Error (lit "document.execCommand copy failed"));
                     Call M_copyTextFallback;
                     ConsoleError (lit "Fallback copy also failed:")
                                  (Error (lit "document.execCommand copy failed"));
                     Alert (lit "Failed to copy text to clipboard. Please select and copy the text manually.")]).
Proof.
  intros Hm Hx. rewrite (copyFinalText_run env s). cbv zeta.
  rewrite Hm, Hx. simpl.
  split; [destruct (execCommand_copy env (S (exec_calls s))); reflexivity|].
  split; [destruct (execCommand_copy env (S (exec_calls s))); reflexivity|].
  split; intros ->; simpl; repeat split.
Qed.

Lemma legacy_copy_is_retried_witness :
  (copyResultBtn_textContent
     (dom (snd (copyFinalText
                  {| net := fun _ => NetworkFailure;
                     navigator_clipboard := false; isSecureContext := true;
                     writeText_resolves := true;
                     execCommand_copy := fun n => Nat.eqb n 1 |}
                  (page [] (lit "the cat")))))
   = lit "Copied!")
  /\ (clipboard (snd (copyFinalText
                        {| net := fun _ => NetworkFailure;
                           navigator_clipboard := false; isSecureContext := true;
                           writeText_resolves := true;
                           execCommand_copy := fun _ => false |}
                        (page [] (lit "the cat"))))
      = []).
Proof.
  split.
  - refine (proj1 (proj2 (proj1 (proj2 (proj2 (@legacy_copy_is_retried _
               (page [] (lit "the cat")) _ _))) _))); reflexivity.
  - refine (proj1 (proj2 (proj2 (proj2 (@legacy_copy_is_retried _
               (page [] (lit "the cat")) _ _))) _)); reflexivity.
Defined.

(** ** The copy feedback and its timer *)

Lemma showCopySuccess_run (env : Env) (s : State) :
  showCopySuccess env s
  = (Returned tt,
     {| dom := set_copyResultBtn_background (lit "#10b981")
                 (set_copyResultBtn_textContent (lit "Copied!") (dom s));
        clipboard := clipboard s; exec_calls := exec_calls s;
        timers := timers s
                  ++ [(2000%N, RestoreCopyButton (copyResultBtn_textContent (dom s)))];
        log := log s ++ [Call M_showCopySuccess] |}).
Proof. reflexivity. Qed.

Lemma fire_next_run (env : Env) (s : State) :
  fire_next env s
  = (Returned tt,
     match timers s with
     | [] => s
     | (_, RestoreCopyButton originalText) :: rest =>
         {| dom := set_copyResultBtn_background []
                     (set_copyResultBtn_textContent originalText (dom s));
            clipboard := clipboard s; exec_calls := exec_calls s;
            timers := rest; log := log s |}
     end).
Proof.
  unfold fire_next, fire, assign, bind, ret, gets, modify, with_dom.
  destruct (timers s) as [|[delay [originalText]] rest]; reflexivity.
Qed.

(** X9.  The feedback of [showCopySuccess] is undone by the timer it sets:
    with no other timer pending, once that timer fires the copy button has
    the text it had before the call, its inline background is empty, and no
    timer is left. *)
Theorem copy_feedback_is_undone (env env' : Env) (s : State) :
  timers s = [] ->
  copyResultBtn_textContent (dom (snd (showCopySuccess env s))) = lit "Copied!"
  /\ timers (snd (showCopySuccess env s))
     = [(2000%N, RestoreCopyButton (copyResultBtn_textContent (dom s)))]
  /\ copyResultBtn_textContent
       (dom (snd (fire_next env' (snd (showCopySuccess env s)))))
     = copyResultBtn_textContent (dom s)
  /\ copyResultBtn_background
       (dom (snd (fire_next env' (snd (showCopySuccess env s)))))
     = []
  /\ timers (snd (fire_next env' (snd (showCopySuccess env s)))) = [].
Proof.
  intros Ht.
  rewrite fire_next_run, showCopySuccess_run.
  cbn [fst snd dom timers]. rewrite Ht. repeat split.
Qed.

Lemma copy_feedback_is_undone_witness :
  copyResultBtn_textContent
    (dom (snd (fire_next legacy_browser
                 (snd (showCopySuccess legacy_browser (page [] [])))))) = lit "Copy".
Proof.
  refine (proj1 (proj2 (proj2 (@copy_feedback_is_undone legacy_browser
                                 legacy_browser (page [] []) _)))).
  reflexivity.
Defined.

(** X10.  A second [showCopySuccess] before the first timer has fired
    takes Copied! for the text to put back: after both timers have fired
    the button still reads Copied!, whatever it read at the start. *)
Theorem quick_second_copy_keeps_feedback (e1 e2 e3 e4 : Env) (s : State) :
  timers s = [] ->
  copyResultBtn_textContent
    (dom (snd (fire_next e4
                 (snd (fire_next e3
                         (snd (showCopySuccess e2
                                 (snd (showCopySuccess e1 s))))))))) = lit "Copied!"
  /\ timers (snd (fire_next e4
                    (snd (fire_next e3
                            (snd (showCopySuccess e2
                                    (snd (showCopySuccess e1 s)))))))) = [].
Proof.
  intros Ht.
  rewrite (showCopySuccess_run e1 s).
  rewrite showCopySuccess_run. cbn [fst snd dom timers]. rewrite Ht.
  rewrite fire_next_run. cbn [fst snd dom timers app].
  rewrite fire_next_run. cbn [fst snd dom timers app].
  split; reflexivity.
Qed.

Lemma quick_second_copy_keeps_feedback_witness :
  copyResultBtn_textContent
    (dom (snd (fire_next legacy_browser
                 (snd (fire_next legacy_browser
                         (snd (showCopySuccess legacy_browser
                                 (snd (showCopySuccess legacy_browser
                                         (page [] []))))))))))
  = lit "Copied!".
Proof.
  refine (proj1 (@quick_second_copy_keeps_feedback legacy_browser legacy_browser
                   legacy_browser legacy_browser (page [] []) _)).
  reflexivity.
Defined.

(** ** [clearInput] *)

(** X11.  [clearInput] empties the text box, hides the results section,
    empties the two arrays and asks for the focus once; it leaves the
    final text, the count and the state of the proofread button as they
    are.  A [proofreadText] that follows sends nothing and shows the alert
    for empty input. *)
Theorem clearInput_then_proofread (env env' : Env) (a : App) :
  fst (clearInput env a) = Returned tt
  /\ textInput_value (dom (ui (snd (clearInput env a)))) = []
  /\ resultsSection_display (dom (ui (snd (clearInput env a)))) = lit "none"
  /\ corrections (snd (clearInput env a)) = []
  /\ originalSentences (snd (clearInput env a)) = []
  /\ focus_calls (snd (clearInput env a)) = S (focus_calls a)
  /\ finalText_textContent (dom (ui (snd (clearInput env a))))
     = finalText_textContent (dom (ui a))
  /\ correctionsCount_textContent (dom (ui (snd (clearInput env a))))
     = correctionsCount_textContent (dom (ui a))
  /\ proofreadBtn_disabled (dom (ui (snd (clearInput env a))))
     = proofreadBtn_disabled (dom (ui a))
  /\ log (snd (proofreadText env' (ui (snd (clearInput env a)))))
     = log (ui a) ++ [Alert (lit "Please enter some text to proofread.")]
  /\ requests (log (snd (proofreadText env' (ui (snd (clearInput env a))))))
     = requests (log (ui a)).
Proof.
  assert (E : trim (textInput_value (dom (ui (snd (clearInput env a))))) = [])
    by apply trim_nil.
  split; [reflexivity|]. split; [reflexivity|]. split; [reflexivity|].
  split; [reflexivity|]. split; [reflexivity|]. split; [reflexivity|].
  split; [reflexivity|]. split; [reflexivity|]. split; [reflexivity|].
  split.
  - rewrite proofreadText_run. cbv zeta. rewrite E. reflexivity.
  - rewrite proofreadText_requests, E. apply app_nil_r.
Qed.

(** ** The listeners *)

(** X12.  The keyboard shortcut is Enter with Ctrl or Meta: then the
    default action is prevented and the listener does what [proofreadText]
    does; any other key, and Enter alone, is left to the browser and
    changes nothing. *)
Theorem shortcut_is_ctrl_or_meta_enter (ctrlKey metaKey : bool) (key : str)
        (env : Env) (s : State) :
  (ctrlKey || metaKey = true ->
   keydown_listener ctrlKey metaKey (lit "Enter") env s
   = (Returned true, snd (proofreadText env s)))
  /\ (ctrlKey || metaKey = false \/ key <> lit "Enter" ->
      keydown_listener ctrlKey metaKey key env s = (Returned false, s)).
Proof.
  unfold keydown_listener. split.
  - intros ->. rewrite str_eqb_refl. simpl. unfold bind, ret.
    pose proof (proofreadText_returns env s) as R.
    destruct (proofreadText env s) as [o s']. simpl in *. subst o. reflexivity.
  - intros [->|Hk]; [reflexivity|].
    apply str_eqb_neq in Hk. rewrite Hk, andb_false_r. reflexivity.
Qed.

Lemma shortcut_is_ctrl_or_meta_enter_witness :
  keydown_listener false true (lit "Enter") legacy_browser (page (lit "teh") [])
  = (Returned true, snd (proofreadText legacy_browser (page (lit "teh") [])))
  /\ keydown_listener false false (lit "Enter") legacy_browser (page (lit "teh") [])
     = (Returned false, page (lit "teh") [])
  /\ keydown_listener true false (lit "a") legacy_browser (page (lit "teh") [])
     = (Returned false, page (lit "teh") []).
Proof.
  split; [|split].
  - refine (proj1 (shortcut_is_ctrl_or_meta_enter false true [] legacy_browser
                     (page (lit "teh") [])) _).
    reflexivity.
  - refine (proj2 (shortcut_is_ctrl_or_meta_enter false false (lit "Enter")
                     legacy_browser (page (lit "teh") [])) _).
    left. reflexivity.
  - refine (proj2 (shortcut_is_ctrl_or_meta_enter true false (lit "a")
                     legacy_browser (page (lit "teh") [])) _).
    right. vm_compute. discriminate.
Defined.

Lemma on_page_snd {X} (m : M X) (e : Env) (a : App) :
  snd (on_page m e a)
  = {| ui := snd (m e (ui a)); corrections := corrections a;
       originalSentences := originalSentences a; focus_calls := focus_calls a |}.
Proof. unfold on_page. destruct (m e (ui a)). reflexivity. Qed.

(** The page after an event. *)
Lemma dispatch_ui (ev : UiEvent) (e : Env) (a : App) :
  ui (snd (dispatch ev e a))
  = match ev with
    | ClickProofread =>
        if proofreadBtn_disabled (dom (ui a))
        then ui a
        else snd (proofreadText e (ui a))
    | ClickClear =>
        with_dom (fun d => set_resultsSection_display (lit "none")
                             (set_textInput_value [] d)) (ui a)
    | ClickCopy => snd (copyFinalText e (ui a))
    | KeyDown ctrlKey metaKey key =>
        if (ctrlKey || metaKey) && str_eqb key (lit "Enter")
        then snd (proofreadText e (ui a))
        else ui a
    | EditText v => with_dom (set_textInput_value v) (ui a)
    | TimerFires => snd (fire_next e (ui a))
    end.
Proof.
  destruct ev; unfold dispatch.
  - destruct (proofreadBtn_disabled (dom (ui a))); [reflexivity|].
    rewrite on_page_snd. reflexivity.
  - reflexivity.
  - rewrite on_page_snd. reflexivity.
  - rewrite on_page_snd. simpl. unfold bind, keydown_listener.
    destruct ((ctrlKey || metaKey) && str_eqb key (lit "Enter")).
    + unfold bind, ret. destruct (proofreadText e (ui a)) as [[u|x] s']; reflexivity.
    + reflexivity.
  - rewrite on_page_snd. reflexivity.
  - rewrite on_page_snd. reflexivity.
Qed.

Lemma dispatch_arrays (ev : UiEvent) (e : Env) (a : App) :
  corrections a = [] -> originalSentences a = [] ->
  corrections (snd (dispatch ev e a)) = []
  /\ originalSentences (snd (dispatch ev e a)) = [].
Proof.
  intros Hc Ho. destruct ev; unfold dispatch; rewrite ?on_page_snd; simpl; auto.
  destruct (proofreadBtn_disabled (dom (ui a))); rewrite ?on_page_snd; simpl; auto.
Qed.

(** X13.  While the proofread button is disabled a click on it does
    nothing, but the keyboard shortcut does not look at the button: with a
    non-empty text it sends a request all the same. *)
Theorem shortcut_ignores_disabled_button (env : Env) (a : App) :
  proofreadBtn_disabled (dom (ui a)) = true ->
  trim (textInput_value (dom (ui a))) <> [] ->
  dispatch ClickProofread env a = (Returned tt, a)
  /\ requests (log (ui (snd (dispatch (KeyDown true false (lit "Enter")) env a))))
     = requests (log (ui a))
       ++ [proofread_request (trim (textInput_value (dom (ui a))))]
  /\ requests (log (ui (snd (dispatch (KeyDown false true (lit "Enter")) env a))))
     = requests (log (ui a))
       ++ [proofread_request (trim (textInput_value (dom (ui a))))].
Proof.
  intros Hd Hne.
  apply truthy_nonempty in Hne.
  split; [unfold dispatch; rewrite Hd; reflexivity|].
  rewrite !dispatch_ui, str_eqb_refl. simpl.
  rewrite proofreadText_requests, Hne. split; reflexivity.
Qed.

Lemma shortcut_ignores_disabled_button_witness :
  dispatch ClickProofread legacy_browser
    {| ui := with_dom (set_proofreadBtn_disabled true) (page (lit "teh cat") []);
       corrections := []; originalSentences := []; focus_calls := 0 |}
  = (Returned tt,
     {| ui := with_dom (set_proofreadBtn_disabled true) (page (lit "teh cat") []);
        corrections := []; originalSentences := []; focus_calls := 0 |}).
Proof.
  refine (proj1 (@shortcut_ignores_disabled_button legacy_browser
                   {| ui := with_dom (set_proofreadBtn_disabled true)
                                     (page (lit "teh cat") []);
                      corrections := []; originalSentences := [];
                      focus_calls := 0 |} _ _)).
  - reflexivity.
  - vm_compute. discriminate.
Defined.

(** ** Sessions *)

Lemma fire_next_frame (e : Env) (s : State) :
  body_children (dom (snd (fire_next e s))) = body_children (dom s)
  /\ acceptAllBtn_display (dom (snd (fire_next e s))) = acceptAllBtn_display (dom s)
  /\ rejectAllBtn_display (dom (snd (fire_next e s))) = rejectAllBtn_display (dom s)
  /\ log (snd (fire_next e s)) = log s.
Proof.
  rewrite fire_next_run. cbn [snd].
  destruct (timers s) as [|[delay [originalText]] rest]; repeat split.
Qed.

(** X14.  From construction on, whatever the user does and whatever the
    network and the browser answer, the accept-all and reject-all buttons
    stay hidden and the two arrays of the app stay empty. *)
Theorem diff_controls_stay_hidden (s : State) (evs : list (Env * UiEvent)) :
  acceptAllBtn_display (dom (ui (run_events evs (construct s)))) = lit "none"
  /\ rejectAllBtn_display (dom (ui (run_events evs (construct s)))) = lit "none"
  /\ corrections (run_events evs (construct s)) = []
  /\ originalSentences (run_events evs (construct s)) = [].
Proof.
  assert (Step : forall evs a,
             acceptAllBtn_display (dom (ui a)) = lit "none" ->
             rejectAllBtn_display (dom (ui a)) = lit "none" ->
             corrections a = [] -> originalSentences a = [] ->
             acceptAllBtn_display (dom (ui (run_events evs a))) = lit "none"
             /\ rejectAllBtn_display (dom (ui (run_events evs a))) = lit "none"
             /\ corrections (run_events evs a) = []
             /\ originalSentences (run_events evs a) = []).
  { clear. induction evs as [|[e ev] evs IH]; intros a Ha Hr Hc Ho; [auto|].
    simpl. destruct (dispatch_arrays ev e a Hc Ho) as [Hc' Ho'].
    apply IH; try assumption; rewrite dispatch_ui; destruct ev.
    - destruct (proofreadBtn_disabled (dom (ui a))); [exact Ha|].
      apply proofreadText_diff_controls; assumption.
    - exact Ha.
    - rewrite (proj1 (copyFinalText_diff_controls e (ui a))). exact Ha.
    - destruct ((ctrlKey || metaKey) && str_eqb key (lit "Enter")); [|exact Ha].
      apply proofreadText_diff_controls; assumption.
    - exact Ha.
    - rewrite (proj1 (proj2 (fire_next_frame e (ui a)))). exact Ha.
    - destruct (proofreadBtn_disabled (dom (ui a))); [exact Hr|].
      apply proofreadText_diff_controls; assumption.
    - exact Hr.
    - rewrite (proj2 (copyFinalText_diff_controls e (ui a))). exact Hr.
    - destruct ((ctrlKey || metaKey) && str_eqb key (lit "Enter")); [|exact Hr].
      apply proofreadText_diff_controls; assumption.
    - exact Hr.
    - rewrite (proj1 (proj2 (proj2 (fire_next_frame e (ui a))))). exact Hr. }
  apply Step; reflexivity.
Qed.

(** X15.  No session leaves anything behind in [document.body]: after any
    sequence of events its children are those it had at the start. *)
Theorem body_is_left_clean (a : App) (evs : list (Env * UiEvent)) :
  body_children (dom (ui (run_events evs a))) = body_children (dom (ui a)).
Proof.
  revert a. induction evs as [|[e ev] evs IH]; intros a; [reflexivity|].
  simpl. rewrite IH, dispatch_ui. destruct ev.
  - destruct (proofreadBtn_disabled (dom (ui a))); [reflexivity|].
    apply proofreadText_body.
  - reflexivity.
  - apply copyFinalText_body.
  - destruct ((ctrlKey || metaKey) && str_eqb key (lit "Enter")); [|reflexivity].
    apply proofreadText_body.
  - reflexivity.
  - apply fire_next_frame.
Qed.

Lemma proofreadText_sends_well (e : Env) (s : State) :
  exists sent,
    requests (log (snd (proofreadText e s))) = requests (log s) ++ sent
    /\ Forall (fun r => exists t, r = proofread_request t /\ t <> [] /\ trim t = t)
              sent.
Proof.
  rewrite proofreadText_requests.
  destruct (truthy (trim (textInput_value (dom s)))) eqn:T; eexists; split;
    try reflexivity; [|constructor].
  constructor; [|constructor].
  exists (trim (textInput_value (dom s))).
  split; [reflexivity|]. split; [apply truthy_nonempty; exact T|].
  apply trim_idempotent.
Qed.

(** X16.  In any session the requests only accumulate, and every request
    that is added is a proofread request whose text is non-empty and has no
    whitespace at either end: no sequence of clicks, keys, edits and timers
    makes the page send an empty text. *)
Theorem sessions_send_only_trimmed_text (a : App) (evs : list (Env * UiEvent)) :
  exists sent,
    requests (log (ui (run_events evs a))) = requests (log (ui a)) ++ sent
    /\ Forall (fun r => exists t, r = proofread_request t /\ t <> [] /\ trim t = t)
              sent.
Proof.
  revert a. induction evs as [|[e ev] evs IH]; intros a.
  - exists []. split; [symmetry; apply app_nil_r|constructor].
  - simpl. destruct (IH (snd (dispatch ev e a))) as (sent2 & E2 & F2).
    assert (H1 : exists sent1,
               requests (log (ui (snd (dispatch ev e a))))
               = requests (log (ui a)) ++ sent1
               /\ Forall (fun r => exists t, r = proofread_request t
                                              /\ t <> [] /\ trim t = t) sent1).
    { rewrite dispatch_ui. destruct ev.
      - destruct (proofreadBtn_disabled (dom (ui a)));
          [exists []; split; [symmetry; apply app_nil_r|constructor]|].
        apply proofreadText_sends_well.
      - exists []. split; [symmetry; apply app_nil_r|constructor].
      - exists []. split; [|constructor].
        rewrite copyFinalText_requests. symmetry. apply app_nil_r.
      - destruct ((ctrlKey || metaKey) && str_eqb key (lit "Enter"));
          [|exists []; split; [symmetry; apply app_nil_r|constructor]].
        apply proofreadText_sends_well.
      - exists []. split; [symmetry; apply app_nil_r|constructor].
      - exists []. split; [|constructor].
        rewrite (proj2 (proj2 (proj2 (fire_next_frame e (ui a))))).
        symmetry. apply app_nil_r. }
    destruct H1 as (sent1 & E1 & F1).
    exists (sent1 ++ sent2). split.
    + rewrite E2, E1, app_assoc. reflexivity.
    + apply Forall_app. split; assumption.
Qed.

End AppProperties.

(* ================================================================== *)
(** * [escapeHtml] *)

Module EscapeProperties.
Import ProofreaderApp.

Lemma escape_char_cases (c : char) :
  (c = 38%N /\ escape_char c = lit "&amp;")
  \/ (c = 160%N /\ escape_char c = lit "&nbsp;")
  \/ (c = 60%N /\ escape_char c = lit "&lt;")
  \/ (c = 62%N /\ escape_char c = lit "&gt;")
  \/ (c <> 38%N /\ c <> 160%N /\ c <> 60%N /\ c <> 62%N /\ escape_char c = [c]).
Proof.
  unfold escape_char.
  destruct (N.eqb_spec c 38); [auto|].
  destruct (N.eqb_spec c 160); [auto|].
  destruct (N.eqb_spec c 60); [auto|].
  destruct (N.eqb_spec c 62); [auto 6|].
  do 4 right. auto.
Qed.

(** X17.  The result of [escapeHtml] contains no [<], no [>] and no
    U+00A0; a text without [&], [<], [>] and U+00A0 comes back
    unchanged. *)
Theorem escapeHtml_has_no_markup (text : str) :
  (forall c, In c (escapeHtml text) -> c <> 60%N /\ c <> 62%N /\ c <> 160%N)
  /\ (Forall (fun c => c <> 38%N /\ c <> 160%N /\ c <> 60%N /\ c <> 62%N) text ->
      escapeHtml text = text).
Proof.
  split.
  - induction text as [|a text IH]; intros c H; [contradiction|].
    unfold escapeHtml in H. simpl in H. apply in_app_or in H.
    destruct H as [H|H]; [|apply IH; exact H].
    destruct (escape_char_cases a)
      as [[_ E]|[[_ E]|[[_ E]|[[_ E]|(n1 & n2 & n3 & n4 & E)]]]];
      rewrite E in H.
    + vm_compute in H. repeat destruct H as [H|H]; try contradiction;
        subst c; repeat split; discriminate.
    + vm_compute in H. repeat destruct H as [H|H]; try contradiction;
        subst c; repeat split; discriminate.
    + vm_compute in H. repeat destruct H as [H|H]; try contradiction;
        subst c; repeat split; discriminate.
    + vm_compute in H. repeat destruct H as [H|H]; try contradiction;
        subst c; repeat split; discriminate.
    + destruct H as [H|[]]. subst c. auto.
  - induction 1 as [|a text (n1 & n2 & n3 & n4) _ IH]; [reflexivity|].
    unfold escapeHtml in *. simpl. rewrite IH.
    destruct (escape_char_cases a)
      as [[E _]|[[E _]|[[E _]|[[E _]|(_ & _ & _ & _ & E)]]]];
      try contradiction.
    rewrite E. reflexivity.
Qed.

Lemma escapeHtml_has_no_markup_witness :
  escapeHtml (lit "teh cat") = lit "teh cat".
Proof.
  refine (proj2 (escapeHtml_has_no_markup (lit "teh cat")) _).
  vm_compute. repeat constructor; discriminate.
Defined.

Lemma escape_char_prefix (c c' : char) (r r' : str) :
  escape_char c ++ r = escape_char c' ++ r' -> c = c' /\ r = r'.
Proof.
  intros H.
  destruct (escape_char_cases c)
    as [[-> E]|[[-> E]|[[-> E]|[[-> E]|(n1 & n2 & n3 & n4 & E)]]]];
    destruct (escape_char_cases c')
      as [[-> E']|[[-> E']|[[-> E']|[[-> E']|(m1 & m2 & m3 & m4 & E')]]]];
    rewrite ?E, ?E' in H; vm_compute in H;
    try discriminate H;
    try (injection H; intros; subst; try congruence; split; reflexivity).
Qed.

(** X18.  [escapeHtml] loses nothing: two texts with the same escaped form
    are the same text. *)
Theorem escapeHtml_is_injective (a b : str) :
  escapeHtml a = escapeHtml b -> a = b.
Proof.
  revert b. induction a as [|c a IH]; intros [|c' b] H.
  - reflexivity.
  - exfalso. unfold escapeHtml in H. simpl in H.
    destruct (escape_char_cases c')
      as [[_ E]|[[_ E]|[[_ E]|[[_ E]|(_ & _ & _ & _ & E)]]]];
      rewrite E in H; vm_compute in H; discriminate H.
  - exfalso. unfold escapeHtml in H. simpl in H.
    destruct (escape_char_cases c)
      as [[_ E]|[[_ E]|[[_ E]|[[_ E]|(_ & _ & _ & _ & E)]]]];
      rewrite E in H; vm_compute in H; discriminate H.
  - unfold escapeHtml in H. simpl in H.
    apply escape_char_prefix in H. destruct H as [-> H].
    f_equal. apply IH. exact H.
Qed.

Lemma escapeHtml_is_injective_witness : lit "a<b" = lit "a<b".
Proof.
  refine (@escapeHtml_is_injective (lit "a<b") (lit "a<b") _). reflexivity.
Defined.

End EscapeProperties.
